(** * uperf_plugin: a shallow embedding of src/uperf_plugin.py

    The development follows the Python module function by function:
    [write_profile], [clean_profile], [start_client], [process_output],
    [run_uperf_server] and [run_uperf].

    Conventions.
    - Python [bytes] and [str] values are Rocq strings.  A decoded [str] is
      represented by its UTF-8 encoding, so [bytes.decode("utf-8")] is the
      identity on well-formed input and raises [UnicodeDecodeError] otherwise.
      All the literals the two regular expressions look for are ASCII, and in
      well-formed UTF-8 no byte of a multi-byte character is an ASCII byte, so
      matching on the encoding agrees with matching on the characters.
    - The class [\d] is read as the ASCII digits [0-9], which is what uperf
      prints.  On a [str] the class also takes the decimal digits of other
      scripts, so the scanner of the sample pattern and the conversions of
      its groups stand for the code on 7-bit text and on fields of ASCII
      digits; the statements that rest on them say so ([is_ascii],
      [digit_fields]).
    - Python [int] is [Z]; a binary64 [float] is a dyadic rational [m * 2^e]
      obtained by round-half-even from the exact value, or infinity.
    - A Python exception is a [Raise] in the [result] monad; a function that
      returns normally yields [Ok]. *)

From Stdlib Require Import ZArith String Ascii List Bool Lia DecimalString.
From stdpp Require Import gmap strings.

Local Open Scope string_scope.
Local Open Scope Z_scope.

(** ** Exceptions and the result monad *)

Inductive exn : Set :=
  | KeyError
  | ValueError
  | OverflowError
  | ZeroDivisionError
  | TypeError
  | AttributeError
  | UnicodeDecodeError
  | FileNotFoundError
  | TimeoutExpired.

Inductive result (A : Type) : Type :=
  | Ok (a : A)
  | Raise (e : exn).

Arguments Ok {A} a.
Arguments Raise {A} e.

#[global] Instance result_ret : MRet result := fun _ a => Ok a.
#[global] Instance result_bind : MBind result := fun _ _ f r =>
  match r with
  | Ok a => f a
  | Raise e => Raise e
  end.

Definition returns {A} (r : result A) : Prop := exists a, r = Ok a.

(** ** Strings *)

Definition newline : ascii := "010"%char.

Definition is_digit (c : ascii) : bool :=
  (48 <=? nat_of_ascii c)%nat && (nat_of_ascii c <=? 57)%nat.

Definition is_digit_or_dot (c : ascii) : bool :=
  is_digit c || Ascii.eqb c "."%char.

Definition is_empty (s : string) : bool :=
  match s with
  | EmptyString => true
  | String _ _ => false
  end.

(** [strip_prefix p s] is [Some r] exactly when [s = p +:+ r]. *)
Fixpoint strip_prefix (p s : string) : option string :=
  match p with
  | EmptyString => Some s
  | String a p' =>
      match s with
      | String b s' => if Ascii.eqb a b then strip_prefix p' s' else None
      | EmptyString => None
      end
  end.

(** The longest prefix of [s] whose characters satisfy [f], and what follows. *)
Fixpoint span (f : ascii -> bool) (s : string) : string * string :=
  match s with
  | EmptyString => (EmptyString, EmptyString)
  | String c r =>
      if f c then let '(a, b) := span f r in (String c a, b)
      else (EmptyString, s)
  end.

Fixpoint forallb_string (f : ascii -> bool) (s : string) : bool :=
  match s with
  | EmptyString => true
  | String c r => f c && forallb_string f r
  end.

(** [bytes.find(sub) != -1] *)
Fixpoint contains (sub s : string) : bool :=
  match strip_prefix sub s with
  | Some _ => true
  | None =>
      match s with
      | EmptyString => false
      | String _ r => contains sub r
      end
  end.

(** ** bytes.decode("utf-8")

    Well-formed byte sequences, Unicode standard table 3-7: no overlong
    forms, no surrogates, nothing above U+10FFFF. *)

Definition in_range (lo hi : nat) (c : ascii) : bool :=
  (lo <=? nat_of_ascii c)%nat && (nat_of_ascii c <=? hi)%nat.

Definition cont (c : ascii) : bool := in_range 128 191 c.

Fixpoint utf8_valid (s : string) : bool :=
  match s with
  | EmptyString => true
  | String b0 r0 =>
      if in_range 0 127 b0 then utf8_valid r0
      else
        match r0 with
        | EmptyString => false
        | String b1 r1 =>
            if in_range 194 223 b0 then cont b1 && utf8_valid r1
            else
              match r1 with
              | EmptyString => false
              | String b2 r2 =>
                  if in_range 224 239 b0 then
                    (if Nat.eqb (nat_of_ascii b0) 224 then in_range 160 191 b1
                     else if Nat.eqb (nat_of_ascii b0) 237 then in_range 128 159 b1
                     else cont b1)
                    && cont b2 && utf8_valid r2
                  else
                    match r2 with
                    | EmptyString => false
                    | String b3 r3 =>
                        in_range 240 244 b0
                        && (if Nat.eqb (nat_of_ascii b0) 240 then in_range 144 191 b1
                            else if Nat.eqb (nat_of_ascii b0) 244 then in_range 128 143 b1
                            else cont b1)
                        && cont b2 && cont b3 && utf8_valid r3
                    end
              end
        end
  end.

Definition decode_utf8 (b : string) : result string :=
  if utf8_valid b then Ok b else Raise UnicodeDecodeError.

(** ** int(...) and float(...) on the captured groups *)

Definition digit_val (c : ascii) : Z := Z.of_nat (nat_of_ascii c) - 48.

Fixpoint int_of_digits (acc : Z) (s : string) : Z :=
  match s with
  | EmptyString => acc
  | String c r => int_of_digits (10 * acc + digit_val c) r
  end.

(** The number a run of ASCII digits denotes. *)
Definition py_int (s : string) : Z := int_of_digits 0 s.

(** The longest text of digits [int] converts (CPython 3.9.14 and later,
    [sys.int_info.default_max_str_digits]); leading zeros count. *)
Definition max_str_digits : nat := 4300.

(** [int(s)] for [s] a non-empty run of ASCII digits, which is what the
    pattern lets through on 7-bit text: the number the digits denote, and
    [ValueError] past [max_str_digits] digits. *)
Definition int_of_str (s : string) : result Z :=
  if (String.length s <=? max_str_digits)%nat then Ok (py_int s)
  else Raise ValueError.

(** A binary64 value: [Finite m e] is [m * 2^e]. *)
Inductive float64 : Set :=
  | Finite (m e : Z)
  | Infinity.

Definition round_half_even (n d : Z) : Z :=
  let q := n / d in
  let r := n mod d in
  if (d <? 2 * r) || ((2 * r =? d) && Z.odd q) then q + 1 else q.

Definition scale (n d e : Z) : Z * Z :=
  if 0 <=? e then (n, d * 2 ^ e) else (n * 2 ^ (- e), d).

(** The binary64 nearest to [n / d], for [0 <= n] and [0 < d]: a 53-bit
    significand, exponent no lower than that of the subnormals, ties to
    even, infinity past the largest finite value. *)
Definition binary64_of_ratio (n d : Z) : float64 :=
  if n =? 0 then Finite 0 0
  else
    let e0 := Z.log2 n - Z.log2 d - 52 in
    let e1 := let '(N, D) := scale n d e0 in
              if N / D <? 2 ^ 52 then e0 - 1 else e0 in
    let e := Z.max e1 (-1074) in
    let '(N, D) := scale n d e in
    let m := round_half_even N D in
    if (0 <=? e) && (2 ^ 1024 <=? m * 2 ^ e) then Infinity else Finite m e.

(** [float(s)] for [s] made of digits and dots: digits with at most one
    dot and at least one digit, else [ValueError]. *)
Definition py_float (s : string) : result float64 :=
  let '(ip, r) := span is_digit s in
  match r with
  | EmptyString =>
      if is_empty ip then Raise ValueError
      else Ok (binary64_of_ratio (py_int ip) 1)
  | String c fp =>
      if Ascii.eqb c "."%char && forallb_string is_digit fp
         && negb (is_empty ip && is_empty fp)
      then Ok (binary64_of_ratio (py_int (ip +:+ fp))
                                 (10 ^ Z.of_nat (String.length fp)))
      else Raise ValueError
  end.

(** [x * 1000] on floats: the exact product, rounded. *)
Definition float_mul_1000 (x : float64) : float64 :=
  match x with
  | Infinity => Infinity
  | Finite m e =>
      if 0 <=? e then binary64_of_ratio (1000 * m * 2 ^ e) 1
      else binary64_of_ratio (1000 * m) (2 ^ (- e))
  end.

(** [int(x)]: truncation toward zero, [OverflowError] on infinity. *)
Definition py_int_of_float (x : float64) : result Z :=
  match x with
  | Infinity => Raise OverflowError
  | Finite m e => Ok (if 0 <=? e then m * 2 ^ e else Z.quot m (2 ^ (- e)))
  end.

(** [a / b] on ints: the correctly rounded quotient; [OverflowError] when it
    is too large for a float. *)
Definition py_truediv (a b : Z) : result float64 :=
  if b =? 0 then Raise ZeroDivisionError
  else
    match binary64_of_ratio (Z.abs a) (Z.abs b) with
    | Infinity => Raise OverflowError
    | Finite m e => Ok (Finite (Z.sgn a * Z.sgn b * m) e)
    end.

(** [int(float(s) * 1000)] *)
Definition scaled_time (s : string) : result Z :=
  x ← py_float s; py_int_of_float (float_mul_1000 x).

(** [int(1000 * (time - last) / ops)] *)
Definition ns_per_op_of (time last ops : Z) : result Z :=
  x ← py_truediv (1000 * (time - last)) ops; py_int_of_float x.

(** ** The two regular expressions of process_output *)

(** [ (.+) \.\.\.] read from the first character after the group's
    first: the longest [n] free of newlines with [s = n +:+ " ..." +:+ _].
    The group is greedy, so it is the last [" ..."] of the line that ends
    it. *)
Fixpoint longest_before_ellipsis (s : string) : option string :=
  match s with
  | EmptyString => None
  | String c r =>
      if Ascii.eqb c newline then None
      else
        match longest_before_ellipsis r with
        | Some n => Some (String c n)
        | None =>
            match strip_prefix " ..." s with
            | Some _ => Some EmptyString
            | None => None
            end
        end
  end.

(** A match of [running profile:(.+) \.\.\.] that starts at the head of
    [s]; the result is group 1. *)
Definition match_profile_here (s : string) : option string :=
  match strip_prefix "running profile:" s with
  | Some (String c r) =>
      if Ascii.eqb c newline then None
      else
        match longest_before_ellipsis r with
        | Some n => Some (String c n)
        | None => None
        end
  | _ => None
  end.

(** [re.search(r"running profile:(.+) \.\.\.", s)]: the leftmost match. *)
Fixpoint re_search_profile (s : string) : option string :=
  match match_profile_here s with
  | Some n => Some n
  | None =>
      match s with
      | EmptyString => None
      | String _ r => re_search_profile r
      end
  end.

(** One sample record: the four captured groups. *)
Definition datapoint : Type := string * string * string * string.

(** A match of
    [timestamp_ms:([\d\.]+) name:Txn(\d+) nr_bytes:(\d+) nr_ops:(\d+)]
    that starts at the head of [s], and the text after it.  Each class is
    followed by a literal that starts with a space, which is outside the
    class, so the only run that can be followed by the literal is the
    longest one; the last group is greedy with nothing after it. *)
Definition match_sample_here (s : string) : option (datapoint * string) :=
  r0 ← strip_prefix "timestamp_ms:" s;
  let '(ts, r1) := span is_digit_or_dot r0 in
  if is_empty ts then None else
  r2 ← strip_prefix " name:Txn" r1;
  let '(idx, r3) := span is_digit r2 in
  if is_empty idx then None else
  r4 ← strip_prefix " nr_bytes:" r3;
  let '(nb, r5) := span is_digit r4 in
  if is_empty nb then None else
  r6 ← strip_prefix " nr_ops:" r5;
  let '(ops, r7) := span is_digit r6 in
  if is_empty ops then None else
  Some ((ts, idx, nb, ops), r7).

(** [re.findall]: the matches from left to right, none overlapping.  After
    a match the scan resumes where the match ended: [skip] counts the
    characters of the current match still to pass over. *)
Fixpoint findall_from (skip : nat) (s : string) {struct s} : list datapoint :=
  match skip with
  | S k =>
      match s with
      | EmptyString => []
      | String _ r => findall_from k r
      end
  | O =>
      match match_sample_here s with
      | Some (dp, rest) =>
          dp :: match s with
                | EmptyString => []
                | String _ r =>
                    findall_from
                      (String.length s - String.length rest - 1)%nat r
                end
      | None =>
          match s with
          | EmptyString => []
          | String _ r => findall_from 0 r
          end
      end
  end.

Definition re_findall_samples (s : string) : list datapoint := findall_from 0 s.

(** ** process_output *)

Record UPerfRawData : Set := mkUPerfRawData {
  nr_bytes : Z;
  nr_ops : Z;
  ns_per_op : Z
}.

Record UPerfResults : Type := mkUPerfResults {
  profile_name : string;
  timeseries_data : gmap Z (gmap Z UPerfRawData)
}.

Record UPerfError : Set := mkUPerfError { error : string }.

(** The local variables the loop of [process_output] updates. *)
Record parse_state : Type := mkParseState {
  ps_timeseries_data : gmap Z (gmap Z UPerfRawData);
  ps_last_timestamp : gmap Z Z
}.

Definition ps_init : parse_state := mkParseState ∅ ∅.

(** [d[k]] on a dict *)
Definition dict_get {V} (d : gmap Z V) (k : Z) : result V :=
  match d !! k with
  | Some v => Ok v
  | None => Raise KeyError
  end.

(** One iteration of [for datapoint in timeseries_data_search]. *)
Definition process_datapoint (st : parse_state) (dp : datapoint)
  : result parse_state :=
  let '(ts, idx, nb, no) := dp in
  time ← scaled_time ts;
  transaction_index ← int_of_str idx;
  bytes ← int_of_str nb;
  ops ← int_of_str no;
  data ←
    (if negb (ops =? 0)
        || bool_decide (is_Some (ps_last_timestamp st !! transaction_index))
     then
       ns ← (if negb (ops =? 0)
             then last ← dict_get (ps_last_timestamp st) transaction_index;
                  ns_per_op_of time last ops
             else Ok 0);
       let inner := default ∅ (ps_timeseries_data st !! transaction_index) in
       Ok (<[transaction_index := <[time := mkUPerfRawData bytes ops ns]> inner]>
             (ps_timeseries_data st))
     else Ok (ps_timeseries_data st));
  Ok (mkParseState data (<[transaction_index := time]> (ps_last_timestamp st))).

Fixpoint process_datapoints (st : parse_state) (dps : list datapoint)
  : result parse_state :=
  match dps with
  | [] => Ok st
  | dp :: rest => st' ← process_datapoint st dp; process_datapoints st' rest
  end.

Definition name_not_found (decoded_output : string) : string :=
  "Failed to parse output: could not find profile name." +:+ String newline "Output: "
  +:+ decoded_output.

Definition no_results_found (decoded_output : string) : string :=
  "No results found." +:+ String newline "Output: " +:+ decoded_output.

(** The pair a step returns: the output id and the output structure. *)
Inductive client_output : Type :=
  | error_output (e : UPerfError)
  | success_output (r : UPerfResults).

Definition output_id (o : client_output) : string :=
  match o with
  | error_output _ => "error"
  | success_output _ => "success"
  end.

Definition process_output (output : string) : result client_output :=
  decoded_output ← decode_utf8 output;
  match re_search_profile decoded_output with
  | None => Ok (error_output (mkUPerfError (name_not_found decoded_output)))
  | Some profile_run =>
      let timeseries_data_search := re_findall_samples decoded_output in
      st ← process_datapoints ps_init timeseries_data_search;
      if (length timeseries_data_search =? 0)%nat
      then Ok (error_output (mkUPerfError (no_results_found decoded_output)))
      else Ok (success_output (mkUPerfResults profile_run (ps_timeseries_data st)))
  end.

(** ** The Workload Model *)

(** A field value the emitter passes through [str(...)]. *)
Inductive py_value : Set :=
  | VInt (z : Z)
  | VStr (s : string).

Definition py_str (v : py_value) : string :=
  match v with
  | VInt z => NilZero.string_of_int (Z.to_int z)
  | VStr s => s
  end.

(** Modelled from the spec: the classes [Profile] and its parts are declared
    in uperf_schema, which is not among the sources.  The fields are the ones
    [write_profile] reads; [options] holds what [flowop.get_options()]
    returns. *)
Record Flowop : Set := mkFlowop {
  type : string;
  options : list string
}.

Record Transaction : Set := mkTransaction {
  iterations : option py_value;
  duration : option py_value;
  rate : option py_value;
  flowops : list Flowop
}.

Record Group : Set := mkGroup {
  nthreads : option py_value;
  nprocs : option py_value;
  transactions : list Transaction
}.

Record Profile : Set := mkProfile {
  name : string;
  groups : list Group
}.





(** ** xml.etree.ElementTree, as far as write_profile uses it *)

#[warnings="-register-all"]
Inductive Element : Set :=
  mkElement (tag : string) (attrib : list (string * string))
            (text : option string) (children : list Element)
            (tail : option string).

Definition new_element (tag : string) : Element := mkElement tag [] None [] None.

Definition elem_tag (e : Element) : string :=
  let 'mkElement t _ _ _ _ := e in t.
Definition elem_children (e : Element) : list Element :=
  let 'mkElement _ _ _ c _ := e in c.
Definition elem_tail (e : Element) : option string :=
  let 'mkElement _ _ _ _ t := e in t.

(** [elem.set(k, v)]: the attributes are a dict, in insertion order. *)
Fixpoint attrib_set (k v : string) (a : list (string * string))
  : list (string * string) :=
  match a with
  | [] => [(k, v)]
  | (k', v') :: r =>
      if String.eqb k k' then (k, v) :: r else (k', v') :: attrib_set k v r
  end.

Definition elem_set (e : Element) (k v : string) : Element :=
  let 'mkElement t a x c l := e in mkElement t (attrib_set k v a) x c l.

Definition elem_append (e child : Element) : Element :=
  let 'mkElement t a x c l := e in mkElement t a x (c ++ [child]) l.

Definition set_tail (e : Element) (s : string) : Element :=
  let 'mkElement t a x c _ := e in mkElement t a x c (Some s).

Definition has_children (e : Element) : bool :=
  negb (length (elem_children e) =? 0)%nat.

Definition is_space (c : ascii) : bool :=
  in_range 9 13 c || in_range 28 32 c.

(** [not s or not s.strip()] *)
Definition blank (s : option string) : bool :=
  match s with
  | None => true
  | Some s => forallb_string is_space s
  end.

(** [indentations[level]]: a newline and [level] times two spaces. *)
Fixpoint indentation (level : nat) : string :=
  match level with
  | O => String newline EmptyString
  | S l => indentation l +:+ "  "
  end.

Fixpoint indent_children (level : nat) (elem : Element) {struct elem} : Element :=
  let 'mkElement t a x c l := elem in
  let child_indentation := indentation (S level) in
  let fix each (cs : list Element) : list Element :=
    match cs with
    | [] => []
    | child :: rest =>
        let child := if has_children child
                     then indent_children (S level) child else child in
        let child := if blank (elem_tail child)
                     then set_tail child child_indentation else child in
        match rest with
        | [] => [if blank (elem_tail child)
                 then set_tail child (indentation level) else child]
        | _ :: _ => child :: each rest
        end
    end in
  mkElement t a (if blank x then Some child_indentation else x) (each c) l.

(** [ET.indent(tree)] *)
Definition indent (tree : Element) : Element :=
  if has_children tree then indent_children 0 tree else tree.

Definition dquote : string := String "034"%char EmptyString.

Fixpoint replace_char (c : ascii) (by_ : string) (s : string) : string :=
  match s with
  | EmptyString => EmptyString
  | String a r =>
      if Ascii.eqb a c then by_ +:+ replace_char c by_ r
      else String a (replace_char c by_ r)
  end.

Definition escape_cdata (s : string) : string :=
  replace_char ">"%char "&gt;"
    (replace_char "<"%char "&lt;" (replace_char "&"%char "&amp;" s)).

Definition opt_text (s : option string) : string :=
  match s with
  | None => EmptyString
  | Some s => escape_cdata s
  end.

Definition nonempty (s : option string) : bool :=
  match s with
  | None => false
  | Some s => negb (is_empty s)
  end.

(** ** Effects on the file system *)

(** The files, by path, and a result or an exception.  The store holds
    regular files in a working directory that can be written: a path holds
    a text or nothing.  Directories, links and permissions, on which
    [os.remove] and [open] can fail or reach another path, are outside it. *)
Definition io (A : Type) : Type :=
  gmap string string -> result A * gmap string string.

#[global] Instance io_ret : MRet io := fun _ a fs => (Ok a, fs).
#[global] Instance io_bind : MBind io := fun _ _ f m fs =>
  match m fs with
  | (Ok a, fs') => f a fs'
  | (Raise e, fs') => (Raise e, fs')
  end.

(** A computation without effects on the files. *)
Definition io_lift {A} (r : result A) : io A := fun fs => (r, fs).

(** [open(path, "w")] and a write of the whole text *)
Definition write_file (path text : string) : io unit := fun fs =>
  (Ok tt, <[path := text]> fs).

(** [open(path, "a")] and a write: the file is created when missing *)
Definition append_file (path text : string) : io unit := fun fs =>
  (Ok tt, <[path := default EmptyString (fs !! path) +:+ text]> fs).

Section Plugin.

(** What the file receives for an attribute value: [_escape_attrib]
    followed by the character references the us-ascii writer substitutes
    for what the encoding lacks.  Library code, and not the same in every
    Python release: a parameter here. *)
Variable escape_attrib : string -> string.

Fixpoint write_items (items : list (string * string)) : string :=
  match items with
  | [] => EmptyString
  | (k, v) :: r =>
      " " +:+ k +:+ "=" +:+ dquote +:+ escape_attrib v +:+ dquote
      +:+ write_items r
  end.

(** [_serialize_xml], for tags without a namespace. *)
Fixpoint serialize_xml (elem : Element) : string :=
  let 'mkElement t a x c l := elem in
  "<" +:+ t +:+ write_items a
  +:+ (if nonempty x || negb (length c =? 0)%nat
       then ">" +:+ opt_text x
            +:+ (fix each (cs : list Element) : string :=
                   match cs with
                   | [] => EmptyString
                   | e :: r => serialize_xml e +:+ each r
                   end) c
            +:+ "</" +:+ t +:+ ">"
       else " />")
  +:+ opt_text l.

Definition xml_declaration : string :=
  "<?xml version='1.0' encoding='us-ascii'?>" +:+ String newline EmptyString.

(** [ET.ElementTree(tree).write(path, encoding="us-ascii",
    xml_declaration=True)]: the text the file holds afterwards. *)
Definition tree_text (tree : Element) : string :=
  xml_declaration +:+ serialize_xml tree.

(** ** write_profile and clean_profile *)

Fixpoint join (sep : string) (l : list string) : string :=
  match l with
  | [] => EmptyString
  | [x] => x
  | x :: r => x +:+ sep +:+ join sep r
  end.

Definition flowop_element (flowop : Flowop) : Element :=
  let flowop_element := elem_set (new_element "flowop") "type" (type flowop) in
  if (0 <? length (options flowop))%nat
  then elem_set flowop_element "options" (join " " (options flowop))
  else flowop_element.

Definition transaction_element (transaction : Transaction) : Element :=
  let transaction_element := new_element "transaction" in
  let transaction_element :=
    match iterations transaction, duration transaction, rate transaction with
    | Some v, _, _ => elem_set transaction_element "iterations" (py_str v)
    | None, Some v, _ => elem_set transaction_element "duration" (py_str v)
    | None, None, Some v => elem_set transaction_element "rate" (py_str v)
    | None, None, None => transaction_element
    end in
  fold_left (fun e flowop => elem_append e (flowop_element flowop))
            (flowops transaction) transaction_element.

Definition group_element (group : Group) : Element :=
  let group_element := new_element "group" in
  let group_element :=
    match nthreads group, nprocs group with
    | Some v, _ => elem_set group_element "nthreads" (py_str v)
    | None, Some v => elem_set group_element "nprocs" (py_str v)
    | None, None => group_element
    end in
  fold_left (fun e transaction => elem_append e (transaction_element transaction))
            (transactions group) group_element.

Definition profile_tree (profile : Profile) : Element :=
  fold_left (fun e group => elem_append e (group_element group))
            (groups profile) (elem_set (new_element "profile") "name" (name profile)).

(** The text of profile.xml once [write_profile] is done. *)
Definition profile_document (profile : Profile) : string :=
  tree_text (indent (profile_tree profile)) +:+ String newline EmptyString.

(** The working directory of the plug-in. *)
Variable cwd : string.

Definition profile_path : string := cwd +:+ "/profile.xml".

Definition write_profile (profile : Profile) : io unit :=
  let tree := profile_tree profile in
  let tree := indent tree in
  _ ← write_file profile_path (tree_text tree);
  append_file profile_path (String newline EmptyString).

Definition clean_profile : io unit := fun fs =>
  if bool_decide (is_Some (fs !! profile_path))
  then (Ok tt, delete profile_path fs)
  else (Ok tt, fs).

(** ** The child process

    What the uperf binary does once asked to start: whether it can be
    spawned at all, what it writes to its two streams, and the code it
    exits with. *)
Record child : Set := mkChild {
  spawns : bool;
  child_stdout : string;
  child_stderr : string;
  returncode : Z
}.

(** [subprocess.Popen(args, stdout=..., stderr=...)]: a stream is captured
    only when it is given a pipe; otherwise the child inherits the
    parent's. *)
Record Popen : Set := mkPopen {
  popen_child : child;
  stdout_pipe : bool;
  stderr_pipe : bool
}.

Definition subprocess_Popen (c : child) (stdout_pipe stderr_pipe : bool)
  : result Popen :=
  if spawns c then Ok (mkPopen c stdout_pipe stderr_pipe)
  else Raise FileNotFoundError.

(** [Popen.communicate()]: the data of each piped stream, [None] for a
    stream that has no pipe.  It returns when the child has exited. *)
Definition communicate (p : Popen) : option string * option string :=
  (if stdout_pipe p then Some (child_stdout (popen_child p)) else None,
   if stderr_pipe p then Some (child_stderr (popen_child p)) else None).

Definition start_client (params : Profile) (c : child) : result Popen :=
  subprocess_Popen c true false.

(** ** run_uperf *)

Definition run_uperf (params : Profile) (c : child) : io client_output :=
  _ ← clean_profile;
  _ ← write_profile params;
  master_process ← io_lift (start_client params c);
  let '(outs, errs) := communicate master_process in
  _ ← clean_profile;
  io_lift
    (if match errs with
        | Some errs => (0 <? String.length errs)%nat
        | None => false
        end
     then
       (* [outs + "\n"] adds a str to bytes *)
       Raise TypeError
     else
       match outs with
       | None => Raise AttributeError
       | Some outs =>
           if contains "aborted" outs
              || contains "WARNING: Errors detected during run" outs
           then
             decoded ← decode_utf8 outs;
             Ok (error_output (mkUPerfError
                   ("Errors found in run. Output:" +:+ String newline decoded)))
           else
             (* print(outs.decode("utf-8")) *)
             _ ← decode_utf8 outs;
             process_output outs
       end).

End Plugin.

(** ** run_uperf_server *)







(** * Vocabulary of the properties *)

(** ** Texts *)

(** Every byte is a 7-bit character.  On such a text the class [\d] of
    the sample pattern is the ASCII digits. *)
Definition is_ascii (s : string) : bool := forallb_string (in_range 0 127) s.

(** A text no [.] of a pattern stops in: it holds no newline. *)
Definition no_newline (s : string) : bool :=
  forallb_string (fun c => negb (Ascii.eqb c newline)) s.

(** The name-announcement line: the marker, a name of at least one
    character that stays on the line, and the ellipsis. *)
Definition has_name_line (s : string) : Prop :=
  exists pre name post,
    s = pre +:+ "running profile:" +:+ name +:+ " ..." +:+ post
    /\ name <> EmptyString /\ no_newline name = true.

(** [s] is empty or starts with a character outside the class [f]. *)
Definition starts_outside (f : ascii -> bool) (s : string) : Prop :=
  match s with
  | EmptyString => True
  | String c _ => f c = false
  end.

(** A sample record that starts at the head of [s]: the four fields, each
    a non-empty run of its class, between the literals of the pattern. *)
Definition sample_record_at (s : string) (dp : datapoint) (post : string) : Prop :=
  let '(ts, idx, nb, ops) := dp in
  s = "timestamp_ms:" +:+ ts +:+ " name:Txn" +:+ idx +:+ " nr_bytes:" +:+ nb
      +:+ " nr_ops:" +:+ ops +:+ post
  /\ ts <> EmptyString /\ forallb_string is_digit_or_dot ts = true
  /\ idx <> EmptyString /\ forallb_string is_digit idx = true
  /\ nb <> EmptyString /\ forallb_string is_digit nb = true
  /\ ops <> EmptyString /\ forallb_string is_digit ops = true.

(** The text holds a sample record somewhere. *)
Definition has_sample_record (s : string) : Prop :=
  exists pre dp post rest, s = pre +:+ rest /\ sample_record_at rest dp post.

(** ** Samples and parser states *)

(** The fields of a sample: the text of the timestamp, and the numbers the
    three counters denote. *)
Definition dp_ts (dp : datapoint) : string := let '(ts, _, _, _) := dp in ts.
Definition dp_index (dp : datapoint) : Z := let '(_, idx, _, _) := dp in py_int idx.
Definition dp_bytes (dp : datapoint) : Z := let '(_, _, nb, _) := dp in py_int nb.
Definition dp_ops (dp : datapoint) : Z := let '(_, _, _, no) := dp in py_int no.

(** The fields of a sample are non-empty runs of ASCII digits (and dots,
    for the timestamp), as the pattern captures them on 7-bit text. *)
Definition digit_fields (dp : datapoint) : Prop :=
  let '(ts, idx, nb, ops) := dp in
  ts <> EmptyString /\ forallb_string is_digit_or_dot ts = true
  /\ idx <> EmptyString /\ forallb_string is_digit idx = true
  /\ nb <> EmptyString /\ forallb_string is_digit nb = true
  /\ ops <> EmptyString /\ forallb_string is_digit ops = true.

(** The three counters of a sample are short enough for [int]. *)
Definition short_counters (dp : datapoint) : Prop :=
  let '(_, idx, nb, no) := dp in
  (String.length idx <= max_str_digits)%nat
  /\ (String.length nb <= max_str_digits)%nat
  /\ (String.length no <= max_str_digits)%nat.

(** The value the loop stores as [ns_per_op]. *)
Definition derived_latency (time last ops : Z) : result Z :=
  if ops =? 0 then Ok 0 else ns_per_op_of time last ops.

(** Close [digit_fields] and [short_counters] on a sample that is given. *)
Ltac given_digit_fields :=
  unfold digit_fields; repeat split; solve [discriminate | vm_compute; reflexivity].
Ltac given_short_counters :=
  unfold short_counters; repeat split; apply Nat.leb_le; vm_compute; reflexivity.

(** Name the four fields of a sample and expose the loop body. *)
Ltac open_datapoint dp :=
  destruct dp as [[[? ?] ?] ?];
  unfold process_datapoint, short_counters, dp_ts, dp_index, dp_bytes, dp_ops in *.

(** An index has measurements only if a timestamp is kept for it. *)
Definition recorded_only_seen (st : parse_state) : Prop :=
  forall i, ps_last_timestamp st !! i = None -> ps_timeseries_data st !! i = None.

(** ** Outputs of uperf *)

Definition nl : string := String newline EmptyString.

(** A run whose first sample of transaction 1 already counts operations. *)
Definition output_first_sample_with_ops : string :=
  "running profile:x ..." +:+ nl
  +:+ "timestamp_ms:1000.0 name:Txn1 nr_bytes:10 nr_ops:5".

(** Two samples of transaction 3, at 1000 ms and 1500 ms, the second
    with 50 operations. *)
Definition output_txn3 : string :=
  "running profile:p ..." +:+ nl
  +:+ "timestamp_ms:1000 name:Txn3 nr_bytes:0 nr_ops:0" +:+ nl
  +:+ "timestamp_ms:1500 name:Txn3 nr_bytes:6400 nr_ops:50" +:+ nl.

(** The measurement at [time] for [index] in a result. *)
Definition measurement (r : UPerfResults) (index time : Z) : option UPerfRawData :=
  inner ← timeseries_data r !! index; inner !! time.

(** A run whose only sample has a lone dot for its timestamp. *)
Definition output_dot_timestamp : string :=
  "running profile:a ..." +:+ nl
  +:+ "timestamp_ms:. name:Txn1 nr_bytes:0 nr_ops:0".

(** A name line, then a byte that is no UTF-8. *)
Definition output_undecodable : string :=
  "running profile:x ..." +:+ nl +:+ String (ascii_of_nat 255) EmptyString.

(** A sample record, no name line, then a byte that is no UTF-8. *)
Definition output_undecodable_headless : string :=
  "timestamp_ms:1000.0 name:Txn1 nr_bytes:0 nr_ops:0"
  +:+ String (ascii_of_nat 255) EmptyString.

(** [n] times the digit [0]. *)
Fixpoint zeros (n : nat) : string :=
  match n with
  | O => EmptyString
  | S k => String "0"%char (zeros k)
  end.

(** A run whose only sample counts its bytes on 4301 digits. *)
Definition output_long_counter : string :=
  "running profile:a ..." +:+ nl
  +:+ "timestamp_ms:1000 name:Txn1 nr_bytes:" +:+ zeros 4301 +:+ " nr_ops:0".

(** ** Documents and workloads *)

(** The number of newline characters a text ends with. *)
Fixpoint trailing_newlines (s : string) : nat :=
  match s with
  | EmptyString => 0
  | String c r =>
      let n := trailing_newlines r in
      if Ascii.eqb c newline && (n =? String.length r)%nat then S n else n
  end.

(** [elem.attrib], in insertion order *)
Definition elem_attrib (e : Element) : list (string * string) :=
  let 'mkElement _ a _ _ _ := e in a.



(** ** Steps *)

(** What [run_uperf] makes of the captured stdout once the profile is
    removed and the error stream found empty. *)
Definition stdout_result (outs : string) : result client_output :=
  if contains "aborted" outs
     || contains "WARNING: Errors detected during run" outs
  then
    decoded ← decode_utf8 outs;
    Ok (error_output (mkUPerfError
          ("Errors found in run. Output:" +:+ String newline decoded)))
  else
    _ ← decode_utf8 outs;
    process_output outs.

(** ** Vocabulary of the further properties *)

(** [dp] is a sample record of the text [s]. *)
Definition sample_of (s : string) (dp : datapoint) : Prop :=
  exists pre rest post, s = pre +:+ rest /\ sample_record_at rest dp post.

(** A recorded measurement as the loop makes them: counters that are not
    negative, and no latency without operations. *)
Definition measurement_ok (raw : UPerfRawData) : Prop :=
  0 <= nr_bytes raw /\ 0 <= nr_ops raw /\ (nr_ops raw = 0 -> ns_per_op raw = 0).

(** A time series as the loop makes them: no index is negative, no index
    has an empty series, no key is negative, every measurement is
    [measurement_ok]. *)
Definition series_ok (data : gmap Z (gmap Z UPerfRawData)) : Prop :=
  forall i inner, data !! i = Some inner ->
    0 <= i /\ inner <> ∅
    /\ forall t raw, inner !! t = Some raw -> 0 <= t /\ measurement_ok raw.

(** The texts [float] accepts among those of digits and dots: digits,
    with at most one dot, and at least one digit. *)
Definition decimal_literal (s : string) : Prop :=
  exists ip fp,
    forallb_string is_digit ip = true /\ forallb_string is_digit fp = true
    /\ ((s = ip /\ ip <> EmptyString)
        \/ (s = ip +:+ "." +:+ fp /\ (ip <> EmptyString \/ fp <> EmptyString))).

(** Every index starts quietly: its first sample has no operation. *)
Definition quiet_starts (l : list datapoint) : Prop :=
  forall (pre : list datapoint) dp post, l = (pre ++ dp :: post)%list ->
    Forall (fun x => dp_index x <> dp_index dp) pre -> dp_ops dp = 0.

(** The timestamp field is a decimal literal of at most 250 characters. *)
Definition plain_timestamp (dp : datapoint) : Prop :=
  decimal_literal (dp_ts dp) /\ (String.length (dp_ts dp) <= 250)%nat.

(** The measurement of index [i] at key [t]. *)
Definition lookup2 (data : gmap Z (gmap Z UPerfRawData)) (i t : Z)
  : option UPerfRawData :=
  inner ← data !! i; inner !! t.

(** Two states of the loop hold the same for index [i]. *)
Definition agree_at (i : Z) (st1 st2 : parse_state) : Prop :=
  ps_timeseries_data st1 !! i = ps_timeseries_data st2 !! i
  /\ ps_last_timestamp st1 !! i = ps_last_timestamp st2 !! i.

(** A name line of [s]: what comes before the marker, the name, and what
    comes after the ellipsis. *)
Definition name_line_at (s pre name post : string) : Prop :=
  s = pre +:+ "running profile:" +:+ name +:+ " ..." +:+ post
  /\ name <> EmptyString /\ no_newline name = true.



(** * Properties *)

(** ** Strings and the scanners *)

#[local] Arguments String.append !s1 s2 : simpl nomatch.

Lemma append_assoc (s1 s2 s3 : string) :
  (s1 +:+ s2) +:+ s3 = s1 +:+ (s2 +:+ s3).
Proof. induction s1 as [|c s1 IH]; simpl; [reflexivity | now rewrite IH]. Qed.

Lemma append_empty_r (s : string) : s +:+ EmptyString = s.
Proof. induction s as [|c s IH]; simpl; [reflexivity | now rewrite IH]. Qed.

Lemma strip_prefix_spec (p s r : string) :
  strip_prefix p s = Some r <-> s = p +:+ r.
Proof.
  revert s; induction p as [|a p IH]; intros s; simpl.
  - split; congruence.
  - destruct s as [|b s]; [split; discriminate|].
    destruct (Ascii.eqb_spec a b) as [->|Hne].
    + rewrite IH. split; congruence.
    + split; [discriminate | intros [= E _]; congruence].
Qed.

Lemma strip_prefix_append (p r : string) : strip_prefix p (p +:+ r) = Some r.
Proof. now apply strip_prefix_spec. Qed.

Lemma longest_before_ellipsis_sound (s n : string) :
  longest_before_ellipsis s = Some n ->
  no_newline n = true /\ exists post, s = n +:+ " ..." +:+ post.
Proof.
  revert n; induction s as [|c r IH]; intros n;
    cbn [longest_before_ellipsis]; [discriminate|].
  destruct (Ascii.eqb c newline) eqn:Hc; [discriminate|].
  destruct (longest_before_ellipsis r) as [n'|] eqn:Hr.
  - intros [= <-]. destruct (IH n' eq_refl) as [Hn [post ->]].
    split; [unfold no_newline in *; simpl; now rewrite Hc | now exists post].
  - destruct (strip_prefix " ..." (String c r)) as [post|] eqn:Hp; [|discriminate].
    intros [= <-]. split; [reflexivity|].
    exists post. now apply strip_prefix_spec in Hp.
Qed.

Lemma append_cons (c : ascii) (s t : string) :
  String c s +:+ t = String c (s +:+ t).
Proof. reflexivity. Qed.

Lemma longest_before_ellipsis_complete (n post : string) :
  no_newline n = true ->
  is_Some (longest_before_ellipsis (n +:+ " ..." +:+ post)).
Proof.
  induction n as [|c n IH]; intros Hn.
  - change (EmptyString +:+ " ..." +:+ post) with (" ..." +:+ post).
    rewrite append_cons. cbn [longest_before_ellipsis].
    change (Ascii.eqb " " newline) with false. cbv iota.
    destruct (longest_before_ellipsis _); [eauto|].
    rewrite <- append_cons, strip_prefix_append. eauto.
  - unfold no_newline in Hn; cbn [forallb_string] in Hn.
    apply andb_true_iff in Hn as [Hc Hn]. apply negb_true_iff in Hc.
    rewrite append_cons. cbn [longest_before_ellipsis]. rewrite Hc.
    destruct (IH Hn) as [m ->]. eauto.
Qed.

Lemma match_profile_here_sound (s n : string) :
  match_profile_here s = Some n ->
  n <> EmptyString /\ no_newline n = true
  /\ exists post, s = "running profile:" +:+ n +:+ " ..." +:+ post.
Proof.
  unfold match_profile_here.
  destruct (strip_prefix "running profile:" s) as [[|c r]|] eqn:Hp;
    try discriminate.
  destruct (Ascii.eqb c newline) eqn:Hc; [discriminate|].
  destruct (longest_before_ellipsis r) as [m|] eqn:Hr; [|discriminate].
  intros [= <-]. apply strip_prefix_spec in Hp.
  destruct (longest_before_ellipsis_sound _ _ Hr) as [Hm [post ->]].
  split; [discriminate|]. split.
  - unfold no_newline in *; simpl; now rewrite Hc.
  - exists post. exact Hp.
Qed.

Lemma match_profile_here_complete (name post : string) :
  name <> EmptyString -> no_newline name = true ->
  is_Some (match_profile_here ("running profile:" +:+ name +:+ " ..." +:+ post)).
Proof.
  intros Hne Hn. unfold match_profile_here.
  rewrite strip_prefix_append.
  destruct name as [|c name]; [congruence|].
  unfold no_newline in Hn; simpl in Hn.
  apply andb_true_iff in Hn as [Hc Hn]. apply negb_true_iff in Hc.
  change (String c name +:+ " ..." +:+ post)
    with (String c (name +:+ " ..." +:+ post)).
  cbv beta iota. rewrite Hc.
  destruct (longest_before_ellipsis_complete name post Hn) as [m ->]. eauto.
Qed.

Lemma re_search_profile_sound (s n : string) :
  re_search_profile s = Some n ->
  exists pre post,
    s = pre +:+ "running profile:" +:+ n +:+ " ..." +:+ post
    /\ n <> EmptyString /\ no_newline n = true.
Proof.
  induction s as [|c r IH].
  - cbn. discriminate.
  - change (re_search_profile (String c r))
      with (match match_profile_here (String c r) with
            | Some n => Some n
            | None => re_search_profile r
            end).
    destruct (match_profile_here (String c r)) as [m|] eqn:Hm.
    + intros [= <-]. apply match_profile_here_sound in Hm as (? & ? & post & Hs).
      exists EmptyString, post. auto.
    + intros H. destruct (IH H) as (pre & post & -> & ? & ?).
      exists (String c pre), post. auto.
Qed.

Lemma re_search_profile_complete (pre name post : string) :
  name <> EmptyString -> no_newline name = true ->
  is_Some (re_search_profile
             (pre +:+ "running profile:" +:+ name +:+ " ..." +:+ post)).
Proof.
  intros Hne Hn. induction pre as [|c pre IH].
  - destruct (match_profile_here_complete name post Hne Hn) as [m Hm].
    change (EmptyString +:+ "running profile:" +:+ name +:+ " ..." +:+ post)
      with ("running profile:" +:+ name +:+ " ..." +:+ post).
    change (re_search_profile ("running profile:" +:+ name +:+ " ..." +:+ post))
      with (match match_profile_here
                    ("running profile:" +:+ name +:+ " ..." +:+ post) with
            | Some n => Some n
            | None => re_search_profile ("unning profile:" +:+ name +:+ " ..." +:+ post)
            end).
    rewrite Hm. eauto.
  - change (re_search_profile
              (String c pre +:+ "running profile:" +:+ name +:+ " ..." +:+ post))
      with (match match_profile_here
                    (String c (pre +:+ "running profile:" +:+ name +:+ " ..." +:+ post)) with
            | Some n => Some n
            | None => re_search_profile
                        (pre +:+ "running profile:" +:+ name +:+ " ..." +:+ post)
            end).
    destruct (match_profile_here _); eauto.
Qed.

(** [re.search] finds a name exactly when the text has a name line. *)
Lemma re_search_profile_None (s : string) :
  re_search_profile s = None <-> ~ has_name_line s.
Proof.
  split.
  - intros H (pre & name & post & -> & Hne & Hn).
    destruct (re_search_profile_complete pre name post Hne Hn) as [m Hm].
    congruence.
  - intros H. destruct (re_search_profile s) as [n|] eqn:Hs; [|reflexivity].
    exfalso. apply H. apply re_search_profile_sound in Hs as (pre & post & ?).
    now exists pre, n, post.
Qed.

Lemma span_spec (f : ascii -> bool) (s a b : string) :
  span f s = (a, b) ->
  s = a +:+ b /\ forallb_string f a = true /\ starts_outside f b.
Proof.
  revert a b; induction s as [|c r IH]; intros a b; cbn [span].
  - intros [= <- <-]. repeat split.
  - destruct (f c) eqn:Hc.
    + destruct (span f r) as [a' b'] eqn:Hr. intros [= <- <-].
      destruct (IH a' b' eq_refl) as (-> & Ha & Hb).
      repeat split; [cbn [forallb_string]; now rewrite Hc, Ha | exact Hb].
    + intros [= <- <-]. repeat split. exact Hc.
Qed.

Lemma span_append (f : ascii -> bool) (a b : string) :
  forallb_string f a = true -> starts_outside f b -> span f (a +:+ b) = (a, b).
Proof.
  intros Ha Hb. induction a as [|c a IH].
  - change (EmptyString +:+ b) with b. destruct b as [|c b]; [reflexivity|].
    cbn [span]. cbn in Hb. now rewrite Hb.
  - cbn [forallb_string] in Ha. apply andb_true_iff in Ha as [Hc Ha].
    rewrite append_cons. cbn [span]. now rewrite Hc, (IH Ha).
Qed.

Lemma span_nonempty (f : ascii -> bool) (a b : string) :
  a <> EmptyString -> forallb_string f a = true ->
  is_empty (fst (span f (a +:+ b))) = false.
Proof.
  intros Hne Ha. destruct a as [|c a]; [congruence|].
  cbn [forallb_string] in Ha. apply andb_true_iff in Ha as [Hc _].
  rewrite append_cons. cbn [span]. rewrite Hc.
  now destruct (span f (a +:+ b)).
Qed.

Lemma is_empty_false (s : string) : is_empty s = false <-> s <> EmptyString.
Proof. destruct s; cbn; split; congruence. Qed.

Lemma match_sample_here_sound (s : string) (dp : datapoint) (rest : string) :
  match_sample_here s = Some (dp, rest) -> sample_record_at s dp rest.
Proof.
  unfold match_sample_here.
  destruct (strip_prefix "timestamp_ms:" s) as [r0|] eqn:H0; [|discriminate].
  cbn [mbind option_bind].
  destruct (span is_digit_or_dot r0) as [ts r1] eqn:S1.
  destruct (is_empty ts) eqn:E1; [discriminate|].
  destruct (strip_prefix " name:Txn" r1) as [r2|] eqn:H2; [|discriminate].
  cbn [mbind option_bind].
  destruct (span is_digit r2) as [idx r3] eqn:S2.
  destruct (is_empty idx) eqn:E2; [discriminate|].
  destruct (strip_prefix " nr_bytes:" r3) as [r4|] eqn:H4; [|discriminate].
  cbn [mbind option_bind].
  destruct (span is_digit r4) as [nb r5] eqn:S3.
  destruct (is_empty nb) eqn:E3; [discriminate|].
  destruct (strip_prefix " nr_ops:" r5) as [r6|] eqn:H6; [|discriminate].
  cbn [mbind option_bind].
  destruct (span is_digit r6) as [ops r7] eqn:S4.
  destruct (is_empty ops) eqn:E4; [discriminate|].
  intros [= <- <-].
  apply strip_prefix_spec in H0, H2, H4, H6.
  apply span_spec in S1 as (-> & F1 & _), S2 as (-> & F2 & _),
    S3 as (-> & F3 & _), S4 as (-> & F4 & _).
  apply is_empty_false in E1, E2, E3, E4.
  unfold sample_record_at. subst. repeat split; assumption.
Qed.

Lemma match_sample_here_complete (s : string) (dp : datapoint) (post : string) :
  sample_record_at s dp post -> is_Some (match_sample_here s).
Proof.
  destruct dp as [[[ts idx] nb] ops].
  intros (-> & N1 & F1 & N2 & F2 & N3 & F3 & N4 & F4).
  unfold match_sample_here.
  rewrite strip_prefix_append. cbn [mbind option_bind].
  rewrite (span_append is_digit_or_dot ts) by (assumption || reflexivity).
  apply is_empty_false in N1 as ->.
  rewrite strip_prefix_append. cbn [mbind option_bind].
  rewrite (span_append is_digit idx) by (assumption || reflexivity).
  apply is_empty_false in N2 as ->.
  rewrite strip_prefix_append. cbn [mbind option_bind].
  rewrite (span_append is_digit nb) by (assumption || reflexivity).
  apply is_empty_false in N3 as ->.
  rewrite strip_prefix_append. cbn [mbind option_bind].
  pose proof (span_nonempty is_digit ops post N4 F4) as E.
  destruct (span is_digit (ops +:+ post)) as [o r]. cbn [fst] in E.
  rewrite E. eauto.
Qed.

Lemma findall_from_0_cons (c : ascii) (r : string) :
  findall_from 0 (String c r) =
  match match_sample_here (String c r) with
  | Some (dp, rest) =>
      dp :: findall_from
              (String.length (String c r) - String.length rest - 1)%nat r
  | None => findall_from 0 r
  end.
Proof. reflexivity. Qed.

Lemma match_sample_here_empty : match_sample_here EmptyString = None.
Proof. reflexivity. Qed.

(** [re.findall] returns matches exactly when the text holds a sample
    record. *)
Lemma re_findall_samples_nil (s : string) :
  re_findall_samples s = [] <-> ~ has_sample_record s.
Proof.
  unfold re_findall_samples. split.
  - intros H (pre & dp & post & rest & -> & Hr). revert H.
    induction pre as [|c pre IH].
    + change (EmptyString +:+ rest) with rest.
      destruct (match_sample_here_complete _ _ _ Hr) as [[dp' rest'] Hm].
      destruct rest as [|c r].
      * now rewrite match_sample_here_empty in Hm.
      * rewrite findall_from_0_cons, Hm. discriminate.
    + rewrite append_cons, findall_from_0_cons.
      destruct (match_sample_here _) as [[dp' rest']|]; [discriminate | exact IH].
  - intros H. induction s as [|c r IH]; [reflexivity|].
    rewrite findall_from_0_cons.
    destruct (match_sample_here (String c r)) as [[dp rest]|] eqn:Hm.
    + exfalso. apply H. exists EmptyString, dp, rest, (String c r).
      split; [reflexivity | now apply match_sample_here_sound].
    + apply IH. intros (pre & dp & post & rest & -> & Hr).
      apply H. exists (String c pre), dp, post, rest. split; [reflexivity | exact Hr].
Qed.

(** ** The loop of process_output *)

Lemma int_of_str_short (s : string) :
  (String.length s <= max_str_digits)%nat -> int_of_str s = Ok (py_int s).
Proof. intros H. unfold int_of_str. apply Nat.leb_le in H. now rewrite H. Qed.

Lemma int_of_str_long (s : string) :
  (max_str_digits < String.length s)%nat -> int_of_str s = Raise ValueError.
Proof. intros H. unfold int_of_str. apply Nat.leb_gt in H. now rewrite H. Qed.

Lemma int_of_str_Ok (s : string) (n : Z) :
  int_of_str s = Ok n -> n = py_int s /\ (String.length s <= max_str_digits)%nat.
Proof.
  unfold int_of_str. destruct (String.length s <=? max_str_digits)%nat eqn:E;
    [|discriminate].
  intros [= <-]. split; [reflexivity | now apply Nat.leb_le].
Qed.

(** Rewrite the three [int(...)] of the loop body on short counters. *)
Ltac convert_counters H :=
  let H1 := fresh in let H2 := fresh in let H3 := fresh in
  destruct H as (H1 & H2 & H3);
  rewrite ?(int_of_str_short _ H1), ?(int_of_str_short _ H2),
    ?(int_of_str_short _ H3);
  cbn [mbind result_bind].

(** A counter of more than [max_str_digits] digits stops the step, once
    the timestamp is converted. *)
Lemma process_datapoint_long (st : parse_state) (dp : datapoint) (t : Z) :
  scaled_time (dp_ts dp) = Ok t -> ~ short_counters dp ->
  process_datapoint st dp = Raise ValueError.
Proof.
  open_datapoint dp. intros Ht Hl. rewrite Ht. cbn [mbind result_bind].
  unfold int_of_str.
  destruct (String.length s0 <=? max_str_digits)%nat eqn:E0; [|reflexivity].
  cbn [mbind result_bind].
  destruct (String.length s1 <=? max_str_digits)%nat eqn:E1; [|reflexivity].
  cbn [mbind result_bind].
  destruct (String.length s2 <=? max_str_digits)%nat eqn:E2; [|reflexivity].
  exfalso. apply Hl. apply Nat.leb_le in E0, E1, E2. auto.
Qed.

(** The first sample of an index, with no operation: nothing is recorded,
    the timestamp is kept. *)
Lemma process_datapoint_first_zero (st : parse_state) (dp : datapoint) (t : Z) :
  short_counters dp ->
  ps_last_timestamp st !! dp_index dp = None ->
  dp_ops dp = 0 ->
  scaled_time (dp_ts dp) = Ok t ->
  process_datapoint st dp =
  Ok (mkParseState (ps_timeseries_data st)
                   (<[dp_index dp := t]> (ps_last_timestamp st))).
Proof.
  open_datapoint dp. intros Hs Hl Ho Ht.
  rewrite Ht. cbn [mbind result_bind]. convert_counters Hs.
  rewrite Ho, Hl. reflexivity.
Qed.

(** The first sample of an index, with operations: the read of
    [transaction_last_timestamp] fails. *)
Lemma process_datapoint_first_nonzero (st : parse_state) (dp : datapoint) (t : Z) :
  short_counters dp ->
  ps_last_timestamp st !! dp_index dp = None ->
  dp_ops dp <> 0 ->
  scaled_time (dp_ts dp) = Ok t ->
  process_datapoint st dp = Raise KeyError.
Proof.
  open_datapoint dp. intros Hs Hl Ho Ht.
  rewrite Ht. cbn [mbind result_bind]. convert_counters Hs.
  apply Z.eqb_neq in Ho. rewrite Ho. cbn [negb orb].
  unfold dict_get. rewrite Hl. reflexivity.
Qed.

(** A later sample of an index: it is recorded, with the latency derived
    from the timestamp kept for the index. *)
Lemma process_datapoint_later (st : parse_state) (dp : datapoint) (t last ns : Z) :
  short_counters dp ->
  ps_last_timestamp st !! dp_index dp = Some last ->
  scaled_time (dp_ts dp) = Ok t ->
  derived_latency t last (dp_ops dp) = Ok ns ->
  process_datapoint st dp =
  Ok (mkParseState
        (<[dp_index dp :=
             <[t := mkUPerfRawData (dp_bytes dp) (dp_ops dp) ns]>
               (default ∅ (ps_timeseries_data st !! dp_index dp))]>
           (ps_timeseries_data st))
        (<[dp_index dp := t]> (ps_last_timestamp st))).
Proof.
  open_datapoint dp. intros Hs Hl Ht Hns.
  rewrite Ht. cbn [mbind result_bind]. convert_counters Hs.
  rewrite Hl. rewrite bool_decide_eq_true_2 by eauto.
  rewrite orb_true_r. unfold derived_latency in Hns.
  destruct (py_int s2 =? 0) eqn:Ho; cbn [negb].
  - injection Hns as <-. reflexivity.
  - unfold dict_get. rewrite Hl. cbn [mbind result_bind].
    rewrite Hns. reflexivity.
Qed.

(** A later sample whose latency does not convert stops the step. *)
Lemma process_datapoint_later_raises (st : parse_state) (dp : datapoint)
    (t last : Z) (e : exn) :
  short_counters dp ->
  ps_last_timestamp st !! dp_index dp = Some last ->
  scaled_time (dp_ts dp) = Ok t ->
  derived_latency t last (dp_ops dp) = Raise e ->
  process_datapoint st dp = Raise e.
Proof.
  open_datapoint dp. intros Hs Hl Ht Hns.
  rewrite Ht. cbn [mbind result_bind]. convert_counters Hs.
  rewrite Hl. rewrite bool_decide_eq_true_2 by eauto.
  rewrite orb_true_r. unfold derived_latency in Hns.
  destruct (py_int s2 =? 0) eqn:Ho; cbn [negb]; [discriminate|].
  unfold dict_get. rewrite Hl. cbn [mbind result_bind].
  rewrite Hns. reflexivity.
Qed.

Lemma short_counters_dec (dp : datapoint) : short_counters dp \/ ~ short_counters dp.
Proof.
  destruct dp as [[[ts idx] nb] no]. unfold short_counters.
  destruct (le_dec (String.length idx) max_str_digits);
    destruct (le_dec (String.length nb) max_str_digits);
    destruct (le_dec (String.length no) max_str_digits); tauto.
Qed.

(** Whatever a step does, it is one of the three cases above. *)
Lemma process_datapoint_Ok (st st' : parse_state) (dp : datapoint) :
  process_datapoint st dp = Ok st' ->
  exists t, scaled_time (dp_ts dp) = Ok t
    /\ ps_last_timestamp st' = <[dp_index dp := t]> (ps_last_timestamp st)
    /\ match ps_last_timestamp st !! dp_index dp with
       | None => dp_ops dp = 0 /\ ps_timeseries_data st' = ps_timeseries_data st
       | Some last =>
           exists ns, derived_latency t last (dp_ops dp) = Ok ns
             /\ ps_timeseries_data st' =
                <[dp_index dp :=
                    <[t := mkUPerfRawData (dp_bytes dp) (dp_ops dp) ns]>
                      (default ∅ (ps_timeseries_data st !! dp_index dp))]>
                  (ps_timeseries_data st)
       end.
Proof.
  intros H. destruct (scaled_time (dp_ts dp)) as [t|e] eqn:Ht.
  2:{ open_datapoint dp. rewrite Ht in H. discriminate. }
  destruct (short_counters_dec dp) as [Hs|Hs].
  2:{ rewrite (process_datapoint_long _ _ _ Ht Hs) in H. discriminate. }
  exists t. split; [reflexivity|].
  destruct (ps_last_timestamp st !! dp_index dp) as [last|] eqn:Hl.
  - destruct (derived_latency t last (dp_ops dp)) as [ns|e] eqn:Hns.
    + rewrite (process_datapoint_later _ _ _ _ _ Hs Hl Ht Hns) in H.
      injection H as <-. split; [reflexivity|]. exists ns. split; reflexivity.
    + rewrite (process_datapoint_later_raises _ _ _ _ _ Hs Hl Ht Hns) in H.
      discriminate.
  - destruct (Z.eq_dec (dp_ops dp) 0) as [Ho|Ho].
    + rewrite (process_datapoint_first_zero _ _ _ Hs Hl Ho Ht) in H.
      injection H as <-. auto.
    + rewrite (process_datapoint_first_nonzero _ _ _ Hs Hl Ho Ht) in H. discriminate.
Qed.

(** A step that returns has converted its counters. *)
Lemma process_datapoint_Ok_short (st st' : parse_state) (dp : datapoint) :
  process_datapoint st dp = Ok st' -> short_counters dp.
Proof.
  intros H. destruct (short_counters_dec dp) as [Hs|Hs]; [exact Hs|].
  destruct (scaled_time (dp_ts dp)) as [t|e] eqn:Ht.
  - rewrite (process_datapoint_long _ _ _ Ht Hs) in H. discriminate.
  - open_datapoint dp. rewrite Ht in H. discriminate.
Qed.

Lemma process_datapoint_other (st st' : parse_state) (dp : datapoint) (i : Z) :
  process_datapoint st dp = Ok st' -> dp_index dp <> i ->
  ps_timeseries_data st' !! i = ps_timeseries_data st !! i
  /\ ps_last_timestamp st' !! i = ps_last_timestamp st !! i.
Proof.
  intros H Hi. apply process_datapoint_Ok in H as (t & _ & -> & Hd).
  rewrite lookup_insert_ne by exact Hi. split; [|reflexivity].
  destruct (ps_last_timestamp st !! dp_index dp).
  - destruct Hd as (ns & _ & ->). now rewrite lookup_insert_ne.
  - destruct Hd as [_ ->]. reflexivity.
Qed.

Lemma process_datapoints_app (st : parse_state) (l1 l2 : list datapoint) :
  process_datapoints st (l1 ++ l2) =
  st' ← process_datapoints st l1; process_datapoints st' l2.
Proof.
  revert st; induction l1 as [|dp l1 IH]; intros st; [reflexivity|].
  cbn [process_datapoints app].
  destruct (process_datapoint st dp) as [st1|e]; cbn [mbind result_bind];
    [apply IH | reflexivity].
Qed.

Lemma process_datapoints_other (st st' : parse_state) (l : list datapoint) (i : Z) :
  process_datapoints st l = Ok st' ->
  Forall (fun dp => dp_index dp <> i) l ->
  ps_timeseries_data st' !! i = ps_timeseries_data st !! i
  /\ ps_last_timestamp st' !! i = ps_last_timestamp st !! i.
Proof.
  revert st; induction l as [|dp l IH]; intros st H Hall.
  - injection H as <-. auto.
  - cbn [process_datapoints] in H.
    destruct (process_datapoint st dp) as [st1|e] eqn:H1; [|discriminate].
    cbn [mbind result_bind] in H. inversion Hall as [|? ? Hi Hl]; subst.
    destruct (IH _ H Hl) as [-> ->]. eapply process_datapoint_other; eauto.
Qed.

Lemma recorded_only_seen_init : recorded_only_seen ps_init.
Proof. intros i _. apply lookup_empty. Qed.

Lemma recorded_only_seen_step (st st' : parse_state) (dp : datapoint) :
  recorded_only_seen st -> process_datapoint st dp = Ok st' ->
  recorded_only_seen st'.
Proof.
  intros Inv H i Hi.
  destruct (Z.eq_dec (dp_index dp) i) as [<-|Hne].
  - apply process_datapoint_Ok in H as (t & _ & E & _).
    rewrite E, lookup_insert_eq in Hi. discriminate.
  - destruct (process_datapoint_other _ _ _ _ H Hne) as [-> E].
    apply Inv. now rewrite <- E.
Qed.

Lemma recorded_only_seen_steps (st st' : parse_state) (l : list datapoint) :
  recorded_only_seen st -> process_datapoints st l = Ok st' ->
  recorded_only_seen st'.
Proof.
  revert st; induction l as [|dp l IH]; intros st Inv H.
  - now injection H as <-.
  - cbn [process_datapoints] in H.
    destruct (process_datapoint st dp) as [st1|e] eqn:H1; [|discriminate].
    eapply IH; [|exact H]. eapply recorded_only_seen_step; eauto.
Qed.

Lemma unseen_index (st : parse_state) (l : list datapoint) (i : Z) :
  process_datapoints ps_init l = Ok st ->
  Forall (fun dp => dp_index dp <> i) l ->
  ps_last_timestamp st !! i = None /\ ps_timeseries_data st !! i = None.
Proof.
  intros H Hall. destruct (process_datapoints_other _ _ _ _ H Hall) as [-> ->].
  split; apply lookup_empty.
Qed.

Lemma process_datapoints_cons_Ok (st st' : parse_state) (dp : datapoint)
    (l : list datapoint) :
  process_datapoints st (dp :: l) = Ok st' ->
  exists st1, process_datapoint st dp = Ok st1 /\ process_datapoints st1 l = Ok st'.
Proof.
  cbn [process_datapoints].
  destruct (process_datapoint st dp) as [st1|e]; [eauto | discriminate].
Qed.

Lemma process_datapoints_app_Ok (st st' : parse_state) (l1 l2 : list datapoint) :
  process_datapoints st (l1 ++ l2) = Ok st' ->
  exists st1, process_datapoints st l1 = Ok st1 /\ process_datapoints st1 l2 = Ok st'.
Proof.
  rewrite process_datapoints_app.
  destruct (process_datapoints st l1) as [st1|e]; [eauto | discriminate].
Qed.

(** Samples that are each the first of their index, without operations,
    and whose timestamps convert: the loop runs through and records
    nothing. *)
Lemma process_datapoints_all_first_zero (l : list datapoint) (st : parse_state) :
  NoDup (map dp_index l) ->
  Forall (fun dp => ps_last_timestamp st !! dp_index dp = None) l ->
  Forall (fun dp => dp_ops dp = 0 /\ returns (scaled_time (dp_ts dp))) l ->
  Forall short_counters l ->
  exists st', process_datapoints st l = Ok st'
    /\ ps_timeseries_data st' = ps_timeseries_data st.
Proof.
  revert st; induction l as [|dp l IH]; intros st Hnd Hun Hz Hsh.
  - exists st. split; reflexivity.
  - inversion Hnd as [|? ? Hnotin Hnd']; subst.
    inversion Hun as [|? ? Hdp Hun']; subst.
    inversion Hz as [|? ? [Ho [t Ht]] Hz']; subst.
    inversion Hsh as [|? ? Hs Hsh']; subst.
    cbn [process_datapoints].
    rewrite (process_datapoint_first_zero _ _ _ Hs Hdp Ho Ht).
    cbn [mbind result_bind].
    destruct (IH (mkParseState (ps_timeseries_data st)
                    (<[dp_index dp := t]> (ps_last_timestamp st)))) as (st' & Hr & Hd).
    + exact Hnd'.
    + rewrite Forall_forall in Hun' |- *. intros dp' Hin. cbn [ps_last_timestamp].
      rewrite lookup_insert_ne; [now apply Hun'|].
      intros E. apply Hnotin. rewrite E. apply list_elem_of_In.
      apply in_map. now apply list_elem_of_In.
    + exact Hz'.
    + exact Hsh'.
    + exists st'. split; [exact Hr | exact Hd].
Qed.

(** ** process_output *)

Lemma is_ascii_utf8_valid (s : string) :
  is_ascii s = true -> utf8_valid s = true.
Proof.
  induction s as [|c s IH]; [reflexivity|].
  unfold is_ascii. cbn [forallb_string]. intros H.
  apply andb_true_iff in H as [Hc H]. cbn [utf8_valid]. rewrite Hc. now apply IH.
Qed.

Lemma process_output_valid (output : string) :
  utf8_valid output = true ->
  process_output output =
  match re_search_profile output with
  | None => Ok (error_output (mkUPerfError (name_not_found output)))
  | Some profile_run =>
      st ← process_datapoints ps_init (re_findall_samples output);
      if (length (re_findall_samples output) =? 0)%nat
      then Ok (error_output (mkUPerfError (no_results_found output)))
      else Ok (success_output (mkUPerfResults profile_run (ps_timeseries_data st)))
  end.
Proof.
  intros H. unfold process_output, decode_utf8. rewrite H. reflexivity.
Qed.

Lemma name_not_found_neq (s : string) : name_not_found s <> no_results_found s.
Proof. unfold name_not_found, no_results_found. cbn. discriminate. Qed.

(** C1: [process_output] does not always return a tagged value.  On an
    output whose first sample for transaction 1 has 5 operations the read
    of the last timestamp of that index raises [KeyError], which nothing
    catches. *)
Theorem process_output_first_sample_with_ops_raises :
  process_output output_first_sample_with_ops = Raise KeyError.
Proof. vm_compute. reflexivity. Qed.

(** In a parse that completes, the same facts read off the run. *)
Lemma suppressed_first_sample_in_run
    (pre mid post : list datapoint) (dp1 dp2 : datapoint) (i : Z)
    (st_end : parse_state) :
  process_datapoints ps_init (pre ++ dp1 :: mid ++ dp2 :: post) = Ok st_end ->
  Forall (fun dp => dp_index dp <> i) pre ->
  dp_index dp1 = i -> dp_ops dp1 = 0 ->
  Forall (fun dp => dp_index dp <> i) mid ->
  dp_index dp2 = i ->
  exists st0 st1 st2 st3 t1 t2 ns,
    process_datapoints ps_init pre = Ok st0
    /\ process_datapoint st0 dp1 = Ok st1
    /\ process_datapoints st1 mid = Ok st2
    /\ process_datapoint st2 dp2 = Ok st3
    /\ scaled_time (dp_ts dp1) = Ok t1
    /\ scaled_time (dp_ts dp2) = Ok t2
    /\ ps_timeseries_data st1 = ps_timeseries_data st0
    /\ ps_timeseries_data st1 !! i = None
    /\ ps_last_timestamp st1 !! i = Some t1
    /\ ps_timeseries_data st3 !! i =
       Some {[ t2 := mkUPerfRawData (dp_bytes dp2) (dp_ops dp2) ns ]}
    /\ derived_latency t2 t1 (dp_ops dp2) = Ok ns.
Proof.
  intros Hrun Hpre Hi1 Ho1 Hmid Hi2.
  apply process_datapoints_app_Ok in Hrun as (st0 & H0 & Hrun).
  apply process_datapoints_cons_Ok in Hrun as (st1 & H1 & Hrun).
  apply process_datapoints_app_Ok in Hrun as (st2 & H2 & Hrun).
  apply process_datapoints_cons_Ok in Hrun as (st3 & H3 & _).
  destruct (unseen_index _ _ _ H0 Hpre) as [Hl0 Hd0].
  destruct (process_datapoint_Ok _ _ _ H1) as (t1 & Ht1 & El1 & Hc1).
  rewrite Hi1, Hl0 in Hc1. destruct Hc1 as [_ Ed1].
  destruct (process_datapoints_other _ _ _ _ H2 Hmid) as [Ed2 El2].
  destruct (process_datapoint_Ok _ _ _ H3) as (t2 & Ht2 & El3 & Hc3).
  rewrite Hi2, El2, El1, Hi1, lookup_insert_eq in Hc3.
  destruct Hc3 as (ns & Hns & Ed3).
  exists st0, st1, st2, st3, t1, t2, ns.
  repeat (split; [first [assumption | reflexivity]|]).
  split; [now rewrite Ed1|].
  split; [now rewrite El1, Hi1, lookup_insert_eq|].
  split; [|exact Hns].
  rewrite Ed3, lookup_insert_eq, Ed2, Ed1, Hd0. cbn [default].
  now rewrite insert_empty.
Qed.



(** C3, as stated, fails: on these two samples the recorded latency is
    10000000, not 10000. *)
Lemma latency_10000_refuted :
  exists r raw,
    process_output output_txn3 = Ok (success_output r)
    /\ measurement r 3 1500000 = Some raw
    /\ ns_per_op raw = 10000000
    /\ ns_per_op raw <> 10000.
Proof.
  eexists _, _. split; [vm_compute; reflexivity|].
  split; [vm_compute; reflexivity|].
  split; [reflexivity | discriminate].
Qed.

(** C3, amended: when the timestamp kept for transaction 3 is 1000000 and
    the next sample of transaction 3 is at 1500000 with 50 operations, the
    sample is recorded with a latency of 1000 * (1500000 - 1000000) / 50 =
    10000000 nanoseconds per operation.  The sample has fields of ASCII
    digits, and counters of at most [max_str_digits] digits. *)
Theorem latency_txn3 (st : parse_state) (dp : datapoint) :
  digit_fields dp -> short_counters dp ->
  ps_last_timestamp st !! 3 = Some 1000000 ->
  dp_index dp = 3 ->
  scaled_time (dp_ts dp) = Ok 1500000 ->
  dp_ops dp = 50 ->
  exists st' inner,
    process_datapoint st dp = Ok st'
    /\ ps_timeseries_data st' !! 3 = Some inner
    /\ inner !! 1500000 = Some (mkUPerfRawData (dp_bytes dp) 50 10000000)
    /\ 1000 * (1500000 - 1000000) / 50 = 10000000.
Proof.
  intros _ Hs Hl Hi Ht Ho.
  assert (Hns : derived_latency 1500000 1000000 (dp_ops dp) = Ok 10000000)
    by (rewrite Ho; vm_compute; reflexivity).
  rewrite <- Hi in Hl.
  eexists _, _. split; [exact (process_datapoint_later _ _ _ _ _ Hs Hl Ht Hns)|].
  cbn [ps_timeseries_data]. rewrite Hi, Ho.
  split; [apply lookup_insert_eq|].
  split; [apply lookup_insert_eq | reflexivity].
Qed.

Lemma latency_txn3_witness :
  exists st' inner,
    process_datapoint (mkParseState ∅ {[ 3 := 1000000 ]})
                      ("1500", "3", "6400", "50") = Ok st'
    /\ ps_timeseries_data st' !! 3 = Some inner
    /\ inner !! 1500000 = Some (mkUPerfRawData 6400 50 10000000)
    /\ 1000 * (1500000 - 1000000) / 50 = 10000000.
Proof.
  apply (latency_txn3 (mkParseState ∅ {[ 3 := 1000000 ]})
                      ("1500", "3", "6400", "50")).
  - given_digit_fields.
  - given_short_counters.
  - reflexivity.
  - reflexivity.
  - vm_compute. reflexivity.
  - reflexivity.
Defined.

(** C7, as stated, fails on an output that does not decode: without a
    name line [process_output] does not return the error that no profile
    name was found, and with a name line and no sample record it does not
    return the error that no results were found; it raises
    [UnicodeDecodeError]. *)
Lemma parse_errors_refuted :
  (~ has_name_line output_undecodable_headless
   /\ process_output output_undecodable_headless = Raise UnicodeDecodeError)
  /\ (has_name_line output_undecodable
      /\ ~ has_sample_record output_undecodable
      /\ process_output output_undecodable = Raise UnicodeDecodeError).
Proof.
  split; [split|split; [|split]].
  - apply re_search_profile_None. vm_compute. reflexivity.
  - vm_compute. reflexivity.
  - exists EmptyString, "x", (nl +:+ String (ascii_of_nat 255) EmptyString).
    split; [reflexivity|]. split; [discriminate | reflexivity].
  - apply re_findall_samples_nil. vm_compute. reflexivity.
  - vm_compute. reflexivity.
Qed.

(** C7, amended: on an output that decodes, [process_output] returns the
    error that no profile name was found exactly when the text has no name
    line, whether or not it holds sample records; and on 7-bit text with a
    name line and no sample record it returns the error that no results
    were found. *)
Theorem parse_errors (output : string) :
  utf8_valid output = true ->
  (process_output output
     = Ok (error_output (mkUPerfError (name_not_found output)))
   <-> ~ has_name_line output)
  /\ (is_ascii output = true ->
      has_name_line output -> ~ has_sample_record output ->
      process_output output
        = Ok (error_output (mkUPerfError (no_results_found output)))).
Proof.
  intros Hv. rewrite (process_output_valid _ Hv). split.
  - rewrite <- re_search_profile_None.
    destruct (re_search_profile output) as [n|]; [|tauto].
    split; [|discriminate]. intros H. exfalso.
    destruct (process_datapoints ps_init (re_findall_samples output));
      [|discriminate].
    cbn [mbind result_bind] in H.
    destruct (length (re_findall_samples output) =? 0)%nat; [|discriminate].
    apply (name_not_found_neq output). congruence.
  - intros _ Hn Hs. apply re_findall_samples_nil in Hs.
    destruct (re_search_profile output) as [n|] eqn:Hr.
    + rewrite Hs. reflexivity.
    + apply re_search_profile_None in Hr. contradiction.
Qed.

(** A text with sample records but no name line, and one with a name line
    but no sample record. *)
Lemma parse_errors_witness :
  let headless := "timestamp_ms:1000.0 name:Txn1 nr_bytes:0 nr_ops:0" in
  let empty_run := "running profile:x ..." +:+ nl +:+ "Txn1  0.00B/0.00s" in
  process_output headless
    = Ok (error_output (mkUPerfError (name_not_found headless)))
  /\ process_output empty_run
       = Ok (error_output (mkUPerfError (no_results_found empty_run))).
Proof.
  intros headless empty_run. split.
  - apply (parse_errors headless); [reflexivity|].
    apply re_search_profile_None. vm_compute. reflexivity.
  - apply (parse_errors empty_run); [reflexivity|reflexivity| |].
    + exists EmptyString, "x", (nl +:+ "Txn1  0.00B/0.00s").
      split; [reflexivity|]. split; [discriminate | reflexivity].
    + apply re_findall_samples_nil. vm_compute. reflexivity.
Defined.

(** C10, as stated, fails: each text has its name line and one sample
    record, the first of its index and without operations.  In the first
    the timestamp is a lone dot and its conversion raises [ValueError]; in
    the second the bytes are counted on 4301 digits and [int] raises
    [ValueError]. *)
Lemma all_suppressed_refuted :
  (re_search_profile output_dot_timestamp = Some "a"
   /\ re_findall_samples output_dot_timestamp = [(".", "1", "0", "0")]
   /\ process_output output_dot_timestamp = Raise ValueError)
  /\ (re_search_profile output_long_counter = Some "a"
      /\ re_findall_samples output_long_counter = [("1000", "1", zeros 4301, "0")]
      /\ process_output output_long_counter = Raise ValueError).
Proof. split; (split; [|split]); vm_compute; reflexivity. Qed.

(** C10, amended: when an output of 7-bit text has its name line and at
    least one sample record, every sample record is the first of its index
    and has no operation, every timestamp field converts and no counter has
    more than [max_str_digits] digits, [process_output] returns a success
    whose time series is empty. *)
Theorem all_suppressed_empty_series (output name : string) :
  is_ascii output = true ->
  re_search_profile output = Some name ->
  re_findall_samples output <> [] ->
  NoDup (map dp_index (re_findall_samples output)) ->
  Forall (fun dp => dp_ops dp = 0 /\ returns (scaled_time (dp_ts dp)))
         (re_findall_samples output) ->
  Forall short_counters (re_findall_samples output) ->
  process_output output = Ok (success_output (mkUPerfResults name ∅)).
Proof.
  intros Hv Hn Hne Hnd Hz Hsh. apply is_ascii_utf8_valid in Hv.
  rewrite (process_output_valid _ Hv), Hn.
  destruct (process_datapoints_all_first_zero
              (re_findall_samples output) ps_init Hnd) as (st & -> & Hd).
  - apply Forall_forall. intros dp _. apply lookup_empty.
  - exact Hz.
  - exact Hsh.
  - cbn [mbind result_bind]. rewrite Hd.
    destruct (re_findall_samples output); [congruence | reflexivity].
Qed.

Lemma all_suppressed_empty_series_witness :
  process_output
    ("running profile:a ..." +:+ nl
     +:+ "timestamp_ms:1000.0 name:Txn1 nr_bytes:0 nr_ops:0" +:+ nl
     +:+ "timestamp_ms:1000.5 name:Txn2 nr_bytes:0 nr_ops:0")
  = Ok (success_output (mkUPerfResults "a" ∅)).
Proof.
  apply all_suppressed_empty_series.
  - reflexivity.
  - vm_compute. reflexivity.
  - vm_compute. discriminate.
  - replace (re_findall_samples _)
      with [("1000.0", "1", "0", "0"); ("1000.5", "2", "0", "0")]
      by (vm_compute; reflexivity).
    change (NoDup [1; 2]). constructor; [|constructor; [|constructor]].
    + apply not_elem_of_cons. split; [discriminate | apply not_elem_of_nil].
    + apply not_elem_of_nil.
  - replace (re_findall_samples _)
      with [("1000.0", "1", "0", "0"); ("1000.5", "2", "0", "0")]
      by (vm_compute; reflexivity).
    constructor; [|constructor; [|constructor]].
    + split; [reflexivity | exists 1000000; vm_compute; reflexivity].
    + split; [reflexivity | exists 1000500; vm_compute; reflexivity].
  - replace (re_findall_samples _)
      with [("1000.0", "1", "0", "0"); ("1000.5", "2", "0", "0")]
      by (vm_compute; reflexivity).
    constructor; [|constructor; [|constructor]]; given_short_counters.
Defined.

(** ** write_profile *)

Lemma append_length (s t : string) :
  String.length (s +:+ t) = (String.length s + String.length t)%nat.
Proof. induction s as [|c s IH]; cbn; [reflexivity | now rewrite IH]. Qed.

Lemma trailing_newlines_after (body : string) (c : ascii) :
  c <> newline -> trailing_newlines (body +:+ String c nl) = 1%nat.
Proof.
  intros Hc. induction body as [|a body IH].
  - change (EmptyString +:+ String c nl) with (String c nl).
    cbn [trailing_newlines nl]. destruct (Ascii.eqb_spec c newline); [contradiction|].
    reflexivity.
  - rewrite append_cons. cbn [trailing_newlines]. rewrite IH.
    rewrite append_length. cbn [String.length nl].
    replace (1 =? String.length body + 2)%nat with false
      by (symmetry; apply Nat.eqb_neq; lia).
    now rewrite andb_false_r.
Qed.

Lemma fold_left_elem_append {A} (f : A -> Element) (l : list A)
    (t : string) (a : list (string * string)) (x : option string)
    (c : list Element) (tl : option string) :
  fold_left (fun e y => elem_append e (f y)) l (mkElement t a x c tl)
  = mkElement t a x (c ++ map f l) tl.
Proof.
  revert c; induction l as [|y l IH]; intros c; cbn [fold_left map].
  - now rewrite app_nil_r.
  - cbn [elem_append]. rewrite IH, <- app_assoc. reflexivity.
Qed.

Lemma profile_tree_eq (p : Profile) :
  profile_tree p
  = mkElement "profile" [("name", name p)] None (map group_element (groups p)) None.
Proof.
  unfold profile_tree, new_element. cbn [elem_set attrib_set].
  now rewrite fold_left_elem_append.
Qed.

Lemma group_element_attrib (g : Group) :
  elem_attrib (group_element g)
  = match nthreads g, nprocs g with
    | Some v, _ => [("nthreads", py_str v)]
    | None, Some v => [("nprocs", py_str v)]
    | None, None => []
    end.
Proof.
  unfold group_element, new_element.
  destruct (nthreads g), (nprocs g); cbn [elem_set attrib_set];
    now rewrite fold_left_elem_append.
Qed.

Lemma transaction_element_attrib (t : Transaction) :
  elem_attrib (transaction_element t)
  = match iterations t, duration t, rate t with
    | Some v, _, _ => [("iterations", py_str v)]
    | None, Some v, _ => [("duration", py_str v)]
    | None, None, Some v => [("rate", py_str v)]
    | None, None, None => []
    end.
Proof.
  unfold transaction_element, new_element.
  destruct (iterations t), (duration t), (rate t);
    cbn [elem_set attrib_set]; now rewrite fold_left_elem_append.
Qed.




Lemma write_profile_spec (esc : string -> string) (cwd : string) (p : Profile)
    (fs : gmap string string) :
  write_profile esc cwd p fs
  = (Ok tt, <[profile_path cwd := profile_document esc p]> fs).
Proof.
  unfold write_profile, write_file, append_file, profile_document.
  unfold mbind, io_bind. rewrite lookup_insert_eq. cbn [default].
  rewrite insert_insert_eq. reflexivity.
Qed.





(** ** run_uperf *)

Lemma clean_profile_spec (cwd : string) (fs : gmap string string) :
  clean_profile cwd fs = (Ok tt, delete (profile_path cwd) fs).
Proof.
  unfold clean_profile. case_bool_decide as H; [reflexivity|].
  rewrite delete_id; [reflexivity|].
  destruct (fs !! profile_path cwd) eqn:E; [|reflexivity].
  exfalso. apply H. eauto.
Qed.

(** When the child cannot be spawned, [Popen] raises before the second
    [clean_profile]: the exception leaves [run_uperf] and the profile
    stays. *)
Lemma run_uperf_launch_failure (esc : string -> string) (cwd : string)
    (params : Profile) (c : child) (fs : gmap string string) :
  spawns c = false ->
  run_uperf esc cwd params c fs
  = (Raise FileNotFoundError,
     <[profile_path cwd := profile_document esc params]> fs).
Proof.
  intros Hs. unfold run_uperf, mbind, io_bind.
  rewrite clean_profile_spec, write_profile_spec.
  unfold io_lift, start_client, subprocess_Popen. rewrite Hs.
  now rewrite insert_delete_eq.
Qed.

(** When the child is spawned, the profile is gone afterwards and the
    result is read off the standard output alone: the error stream has no
    pipe, so [communicate] reports [None] for it. *)
Lemma run_uperf_spawned (esc : string -> string) (cwd : string)
    (params : Profile) (c : child) (fs : gmap string string) :
  spawns c = true ->
  run_uperf esc cwd params c fs
  = (stdout_result (child_stdout c), delete (profile_path cwd) fs).
Proof.
  intros Hs. unfold run_uperf, mbind, io_bind.
  rewrite clean_profile_spec, write_profile_spec.
  unfold io_lift, start_client, subprocess_Popen. rewrite Hs.
  cbn [communicate stdout_pipe stderr_pipe popen_child].
  rewrite clean_profile_spec.
  rewrite delete_insert_eq, delete_delete_eq. reflexivity.
Qed.

Lemma run_uperf_cleans_when_spawned (esc : string -> string) (cwd : string)
    (params : Profile) (c : child) (fs : gmap string string) :
  spawns c = true ->
  snd (run_uperf esc cwd params c fs) !! profile_path cwd = None.
Proof.
  intros Hs. rewrite (run_uperf_spawned _ _ _ _ _ Hs). apply lookup_delete_eq.
Qed.

(** C4: the profile is not removed on every exit path.  For every
    workload and every state of the files, when the uperf binary cannot
    be spawned [run_uperf] ends with [FileNotFoundError] and the profile it
    has just written is still at the profile path. *)
Theorem launch_failure_leaves_profile (esc : string -> string) (cwd : string)
    (params : Profile) (out err : string) (code : Z) (fs : gmap string string) :
  fst (run_uperf esc cwd params (mkChild false out err code) fs)
    = Raise FileNotFoundError
  /\ snd (run_uperf esc cwd params (mkChild false out err code) fs)
       !! profile_path cwd
     = Some (profile_document esc params).
Proof.
  rewrite run_uperf_launch_failure by reflexivity.
  split; [reflexivity | apply lookup_insert_eq].
Qed.

(** C6: data on the error stream does not make the run an error.  The
    result of [run_uperf] is the same whatever the child writes to its
    error stream, and a child that prints two samples and complains on its
    error stream yields a success. *)
Theorem stderr_is_ignored (esc : string -> string) (cwd : string)
    (params : Profile) (out err : string) (code : Z) (fs : gmap string string) :
  run_uperf esc cwd params (mkChild true out err code) fs
    = run_uperf esc cwd params (mkChild true out EmptyString code) fs
  /\ exists r,
       fst (run_uperf esc cwd params
              (mkChild true output_txn3 "connection refused" code) fs)
       = Ok (success_output r).
Proof.
  rewrite !run_uperf_spawned by reflexivity. split; [reflexivity|].
  cbn [fst child_stdout]. eexists. vm_compute. reflexivity.
Qed.

(** ** run_uperf_server *)




(** * Further properties *)

(** ** Floating point: where the conversions are exact *)

(** Rounding [n * P / d] to the nearest integer and dropping the [P] again
    gives the floor of [n / d], unless the fraction is within half a unit
    of the next integer. *)
Lemma round_half_even_shift (n d P : Z) :
  0 <= n -> 0 < d -> 0 < P ->
  d < (d - n mod d) * (2 * P) ->
  round_half_even (n * P) d / P = n / d.
Proof.
  intros Hn Hd HP Hc. unfold round_half_even.
  set (q := n / d). set (r := n mod d).
  assert (En : n = d * q + r) by (apply Z.div_mod; lia).
  assert (Hr : 0 <= r < d) by (apply Z.mod_pos_bound; lia).
  assert (Hq : 0 <= q) by (apply Z.div_pos; lia).
  set (q' := (n * P) / d). set (r' := (n * P) mod d).
  assert (EN : n * P = d * q' + r') by (apply Z.div_mod; lia).
  assert (Hr' : 0 <= r' < d) by (apply Z.mod_pos_bound; lia).
  assert (Lo : q * P <= q') by nia.
  assert (Hi : q' < q * P + P) by nia.
  destruct ((d <? 2 * r') || ((2 * r' =? d) && Z.odd q')) eqn:Hup.
  - assert (2 * r' >= d).
    { apply orb_true_iff in Hup as [H|H]; [apply Z.ltb_lt in H; lia|].
      apply andb_true_iff in H as [H _]. apply Z.eqb_eq in H. lia. }
    assert (q' + 1 < q * P + P) by nia.
    symmetry. apply Z.div_unique with (r := q' + 1 - q * P); lia.
  - symmetry. apply Z.div_unique with (r := q' - q * P); lia.
Qed.
Lemma pow2_pos (x : Z) : 0 <= x -> 0 < 2 ^ x.
Proof. intros. apply Z.pow_pos_nonneg; lia. Qed.

Lemma pow2_le (x y : Z) : 0 <= x <= y -> 2 ^ x <= 2 ^ y.
Proof. intros. apply Z.pow_le_mono_r; lia. Qed.

Lemma pow2_succ (x : Z) : 0 <= x -> 2 ^ (x + 1) = 2 * 2 ^ x.
Proof. intros. rewrite Z.pow_add_r by lia. lia. Qed.

Lemma log2_bounds (n : Z) :
  0 < n -> 0 <= Z.log2 n /\ 2 ^ Z.log2 n <= n < 2 * 2 ^ Z.log2 n.
Proof.
  intros Hn. pose proof (Z.log2_spec n Hn) as H. pose proof (Z.log2_nonneg n).
  rewrite <- Z.add_1_r, pow2_succ in H by lia. lia.
Qed.

(** A ratio below [2^53] gets an exponent that is not positive. *)
Lemma binary64_of_ratio_small (n d : Z) :
  0 < n -> 0 < d -> n < 2 ^ 53 * d ->
  exists k, 0 <= k
    /\ binary64_of_ratio n d = Finite (round_half_even (n * 2 ^ k) d) (- k)
    /\ (n < 2 ^ 53 -> d < (d - n mod d) * (2 * 2 ^ k)).
Proof.
  intros Hn Hd Hlt. unfold binary64_of_ratio.
  destruct (Z.eqb_spec n 0) as [|_]; [lia|].
  destruct (log2_bounds n Hn) as (Ha & HaL & HaU).
  destruct (log2_bounds d Hd) as (Hb & HbL & HbU).
  set (a := Z.log2 n) in *. set (b := Z.log2 d) in *.
  set (e0 := a - b - 52).
  set (e1 := let '(N, D) := scale n d e0 in if N / D <? 2 ^ 52 then e0 - 1 else e0).
  assert (He10 : e0 - 1 <= e1 <= e0).
  { unfold e1. destruct (scale n d e0) as [N D]. destruct (N / D <? 2 ^ 52); lia. }
  assert (He1 : e1 <= 0).
  { destruct (Z_le_gt_dec e0 0) as [H0|H0]; [lia|].
    assert (Ea : a = b + 52 + e0) by (unfold e0; lia).
    destruct (Z.eq_dec e0 1) as [E1|E1].
    - (* e0 = 1: the test has to succeed *)
      clear He10. unfold e1, scale. rewrite E1. cbn [Z.leb Z.compare].
      change (2 ^ 1) with 2.
      destruct (Z.ltb_spec (n / (d * 2)) (2 ^ 52)) as [Ht|Ht]; [lia|]. exfalso.
      assert (2 ^ 52 * (d * 2) <= n).
      { etransitivity; [|apply (Z.mul_div_le n (d * 2)); lia].
        rewrite (Z.mul_comm (d * 2)). apply Z.mul_le_mono_nonneg_r; lia. }
      change (2 ^ 53) with (2 ^ 52 * 2) in Hlt. lia.
    - exfalso.
      assert (E2 : 2 ^ a = 2 ^ b * 2 ^ 52 * 2 ^ e0).
      { rewrite Ea, !Z.pow_add_r by lia. reflexivity. }
      assert (4 <= 2 ^ e0) by (change 4 with (2 ^ 2); apply pow2_le; lia).
      change (2 ^ 53) with (2 ^ 52 * 2) in Hlt.
      pose proof (pow2_pos b Hb). nia. }
  set (e := Z.max e1 (-1074)).
  assert (He : -1074 <= e <= 0) by (unfold e; lia).
  exists (- e). split; [lia|]. rewrite Z.opp_involutive.
  assert (Esc : scale n d e = (n * 2 ^ (- e), d)).
  { unfold scale. destruct (Z.leb_spec 0 e) as [H|H]; [|reflexivity].
    assert (e = 0) as -> by lia. f_equal; cbn; lia. }
  rewrite Esc. split.
  - destruct (Z.leb_spec 0 e) as [H|H]; [|reflexivity].
    assert (E0 : e = 0) by lia. rewrite E0 in *. cbn [andb].
    destruct (Z.leb_spec (2 ^ 1024) (round_half_even (n * 2 ^ (- 0)) d * 2 ^ 0))
      as [Hov|]; [|reflexivity].
    exfalso. change (2 ^ (-0)) with 1 in Hov. change (2 ^ 0) with 1 in Hov.
    rewrite !Z.mul_1_r in Hov. unfold round_half_even in Hov.
    assert (n / d < 2 ^ 53) by (apply Z.div_lt_upper_bound; lia).
    assert (2 ^ 53 + 1 < 2 ^ 1024) by (vm_compute; reflexivity).
    destruct (_ || _) in Hov; lia.
  - intros Hn53.
    assert (Hr : 0 <= n mod d < d) by (apply Z.mod_pos_bound; lia).
    destruct (Z_le_gt_dec (-1074) e1) as [Hnorm|Hsub].
    + (* normal range: the exponent is the one chosen *)
      assert (Ee : e = e1) by (unfold e; lia).
      assert (a < 53) by (apply Z.log2_lt_pow2; lia).
      assert (b <= - e) by (unfold e0 in He10; lia).
      pose proof (pow2_le b (- e) ltac:(lia)). nia.
    + (* subnormal range *)
      assert (Ee : e = -1074) by (unfold e; lia). rewrite Ee.
      change (- -1074) with 1074.
      assert (Hab : a + 1022 <= b) by (unfold e0 in He10; lia).
      assert (2 * 2 ^ a <= 2 ^ (b - 1)).
      { rewrite <- pow2_succ by lia. apply pow2_le. lia. }
      assert (2 ^ b = 2 * 2 ^ (b - 1)).
      { rewrite <- pow2_succ by lia. f_equal. lia. }
      rewrite Z.mod_small by lia.
      assert (4 <= 2 * 2 ^ 1074) by (vm_compute; discriminate).
      nia.
Qed.

Lemma round_half_even_nonneg (n d : Z) : 0 <= n -> 0 < d -> 0 <= round_half_even n d.
Proof.
  intros Hn Hd. unfold round_half_even.
  assert (0 <= n / d) by (apply Z.div_pos; lia).
  destruct (_ || _); lia.
Qed.

(** For a ratio below [2^53] that is an integer, or whose numerator is
    below [2^53], the float is finite and [int] of it is the floor of the
    ratio. *)
Lemma binary64_of_ratio_floor (n d : Z) :
  0 <= n -> 0 < d -> n < 2 ^ 53 * d -> n mod d = 0 \/ n < 2 ^ 53 ->
  exists m e, binary64_of_ratio n d = Finite m e
    /\ 0 <= m
    /\ py_int_of_float (Finite m e) = Ok (n / d).
Proof.
  intros Hn Hd Hlt Hex.
  destruct (Z.eq_dec n 0) as [->|Hn0].
  { exists 0, 0. split; [reflexivity|]. split; [lia|].
    cbn. now rewrite Z.div_0_l by lia. }
  destruct (binary64_of_ratio_small n d) as (k & Hk & -> & Hc); [lia..|].
  assert (HP : 0 < 2 ^ k) by now apply pow2_pos.
  assert (Hcond : d < (d - n mod d) * (2 * 2 ^ k)).
  { destruct Hex as [E|H53]; [rewrite E; nia | now apply Hc]. }
  pose proof (round_half_even_shift n d (2 ^ k) Hn Hd HP Hcond) as Hs.
  assert (Hm : 0 <= round_half_even (n * 2 ^ k) d)
    by (apply round_half_even_nonneg; nia).
  eexists _, _. split; [reflexivity|]. split; [exact Hm|].
  cbn [py_int_of_float]. f_equal.
  destruct (Z.leb_spec 0 (- k)) as [H|H].
  - assert (k = 0) as -> by lia. change (2 ^ 0) with 1 in *. change (2 ^ (-0)) with 1.
    rewrite Z.div_1_r in Hs. lia.
  - rewrite Z.opp_involutive, Z.quot_div_nonneg by lia. exact Hs.
Qed.

(** X1: the stored latency is the integer quotient, truncated toward zero,
    as long as [1000 * (time - last)] is below [2^53] in absolute value. *)
Theorem ns_per_op_of_exact (time last ops : Z) :
  ops <> 0 ->
  Z.abs (1000 * (time - last)) < 2 ^ 53 ->
  ns_per_op_of time last ops = Ok (Z.quot (1000 * (time - last)) ops).
Proof.
  intros Ho Ha. unfold ns_per_op_of, py_truediv.
  set (a := 1000 * (time - last)) in *.
  destruct (Z.eqb_spec ops 0) as [|_]; [contradiction|].
  destruct (binary64_of_ratio_floor (Z.abs a) (Z.abs ops)) as (m & e & -> & Hm & Hi);
    [lia | lia | nia | now right |].
  cbn [mbind result_bind]. cbn [py_int_of_float] in *. injection Hi as Hi. f_equal.
  rewrite (Z.quot_div a ops Ho), <- Hi.
  destruct (Z.leb_spec 0 e); [ring|].
  assert (0 < 2 ^ (- e)) by (apply pow2_pos; lia).
  destruct (Z.sgn_spec a) as [[? ->]|[[? ->]|[? ->]]],
           (Z.sgn_spec ops) as [[? ->]|[[? ->]|[? ->]]]; try lia;
    rewrite ?Z.mul_1_l, ?Z.mul_0_l, ?Z.quot_0_l by lia; try reflexivity;
    try (replace (-1 * 1 * m) with (- m) by ring);
    try (replace (1 * -1 * m) with (- m) by ring);
    try (replace (-1 * -1 * m) with m by ring);
    try (replace (-1 * 1 * (m ÷ 2 ^ (- e))) with (- (m ÷ 2 ^ (- e))) by ring);
    try (replace (1 * -1 * (m ÷ 2 ^ (- e))) with (- (m ÷ 2 ^ (- e))) by ring);
    try (replace (-1 * -1 * (m ÷ 2 ^ (- e))) with (m ÷ 2 ^ (- e)) by ring);
    rewrite ?Z.quot_opp_l by lia; reflexivity.
Qed.

Lemma span_all (f : ascii -> bool) (s : string) :
  forallb_string f s = true -> span f s = (s, EmptyString).
Proof.
  induction s as [|c s IH]; cbn [forallb_string span]; [reflexivity|].
  intros H. apply andb_true_iff in H as [-> H]. now rewrite (IH H).
Qed.

Lemma digit_val_bounds (c : ascii) : is_digit c = true -> 0 <= digit_val c <= 9.
Proof.
  unfold is_digit, digit_val. intros H. apply andb_true_iff in H as [H1 H2].
  apply Nat.leb_le in H1, H2. lia.
Qed.

Lemma int_of_digits_nonneg (s : string) (acc : Z) :
  forallb_string is_digit s = true -> 0 <= acc -> 0 <= int_of_digits acc s.
Proof.
  revert acc; induction s as [|c s IH]; intros acc H Hacc; cbn [int_of_digits];
    [exact Hacc|].
  cbn [forallb_string] in H. apply andb_true_iff in H as [Hc H].
  apply IH; [exact H|]. pose proof (digit_val_bounds c Hc). lia.
Qed.

Lemma py_int_nonneg (s : string) : forallb_string is_digit s = true -> 0 <= py_int s.
Proof. intros H. now apply int_of_digits_nonneg. Qed.

Lemma round_half_even_1 (n : Z) : round_half_even n 1 = n.
Proof.
  unfold round_half_even. rewrite Z.mod_1_r, Z.div_1_r. reflexivity.
Qed.

(** X2: a timestamp written as a whole number of milliseconds, below
    [2^53 / 1000], gets the key that is 1000 times it. *)
Theorem scaled_time_whole (s : string) :
  s <> EmptyString -> forallb_string is_digit s = true ->
  1000 * py_int s < 2 ^ 53 ->
  scaled_time s = Ok (1000 * py_int s).
Proof.
  intros Hne Hd Hlt. unfold scaled_time, py_float.
  rewrite (span_all _ _ Hd).
  destruct s as [|c s]; [congruence|]. cbn [is_empty mbind result_bind].
  set (v := py_int (String c s)) in *.
  assert (Hv : 0 <= v) by now apply py_int_nonneg.
  destruct (Z.eq_dec v 0) as [->|Hv0]; [reflexivity|].
  destruct (binary64_of_ratio_small v 1) as (k & Hk & -> & _); [lia..|].
  rewrite round_half_even_1. cbn [float_mul_1000].
  assert (HP : 0 < 2 ^ k) by now apply pow2_pos.
  destruct (binary64_of_ratio_floor (1000 * (v * 2 ^ k)) (2 ^ k))
    as (m & e & Hb & _ & Hi).
  - nia.
  - exact HP.
  - nia.
  - left. rewrite Z.mul_assoc. apply Z.mod_mul. lia.
  - rewrite Z.mul_assoc, Z.div_mul in Hi by lia.
    destruct (Z.leb_spec 0 (- k)) as [H|H].
    + assert (k = 0) as -> by lia. change (2 ^ 0) with 1 in *.
      change (2 ^ (- 0)) with 1. rewrite !Z.mul_1_r in *. now rewrite Hb.
    + rewrite Z.opp_involutive. now rewrite Hb.
Qed.

(** ** What re.findall returns *)

Lemma sample_of_cons (c : ascii) (r : string) (dp : datapoint) :
  sample_of r dp -> sample_of (String c r) dp.
Proof.
  intros (pre & rest & post & -> & H). now exists (String c pre), rest, post.
Qed.

Lemma findall_from_sound (s : string) (skip : nat) :
  Forall (sample_of s) (findall_from skip s).
Proof.
  revert skip; induction s as [|c r IH]; intros skip.
  - destruct skip; [|constructor].
    change (findall_from 0 EmptyString) with
      (match match_sample_here EmptyString with
       | Some (dp, _) => [dp]
       | None => []
       end).
    rewrite match_sample_here_empty. constructor.
  - assert (Hlift : forall k, Forall (sample_of (String c r)) (findall_from k r)).
    { intros k. eapply Forall_impl; [apply IH|]. intros dp. apply sample_of_cons. }
    destruct skip as [|k]; [|apply Hlift].
    rewrite findall_from_0_cons.
    destruct (match_sample_here (String c r)) as [[dp rest]|] eqn:Hm; [|apply Hlift].
    constructor; [|apply Hlift].
    exists EmptyString, (String c r), rest. split; [reflexivity|].
    now apply match_sample_here_sound.
Qed.

Lemma sample_of_digit_fields (s : string) (dp : datapoint) :
  sample_of s dp -> digit_fields dp.
Proof.
  destruct dp as [[[ts idx] nb] ops]. intros (pre & rest & post & _ & H).
  unfold sample_record_at in H. unfold digit_fields. tauto.
Qed.

(** X10: on 7-bit text, every tuple [re.findall] returns is a sample
    record of the text, and its fields are non-empty runs of ASCII digits
    (and dots, for the timestamp). *)
Theorem re_findall_samples_sound (s : string) :
  is_ascii s = true ->
  Forall (fun dp => sample_of s dp /\ digit_fields dp) (re_findall_samples s).
Proof.
  intros _. eapply Forall_impl; [apply findall_from_sound|].
  intros dp H. split; [exact H | exact (sample_of_digit_fields s dp H)].
Qed.

Lemma re_findall_samples_sound_witness :
  Forall (fun dp => sample_of output_txn3 dp /\ digit_fields dp)
         (re_findall_samples output_txn3).
Proof. apply re_findall_samples_sound. reflexivity. Defined.

(** ** The time series of a success *)

Lemma binary64_of_ratio_nonneg (n d m e : Z) :
  0 <= n -> 0 < d -> binary64_of_ratio n d = Finite m e -> 0 <= m.
Proof.
  intros Hn Hd. unfold binary64_of_ratio.
  destruct (n =? 0); [intros [= <- _]; lia|].
  set (e1 := let '(N, D) := scale n d (Z.log2 n - Z.log2 d - 52) in _).
  set (e' := Z.max e1 (-1074)).
  assert (Hs : 0 <= fst (scale n d e') /\ 0 < snd (scale n d e')).
  { unfold scale. destruct (Z.leb_spec 0 e'); cbn [fst snd].
    - split; [lia|]. apply Z.mul_pos_pos; [lia|]. apply Z.pow_pos_nonneg; lia.
    - split; [|lia]. apply Z.mul_nonneg_nonneg; [lia|]. apply Z.pow_nonneg. lia. }
  destruct (scale n d e') as [N D]. cbn [fst snd] in Hs.
  destruct (_ && _); [discriminate|]. intros [= <- _].
  apply round_half_even_nonneg; lia.
Qed.

Lemma py_int_append_nonneg (a b : string) :
  forallb_string is_digit a = true -> forallb_string is_digit b = true ->
  0 <= py_int (a +:+ b).
Proof.
  intros Ha Hb. apply py_int_nonneg.
  induction a as [|c a IH]; [exact Hb|].
  cbn [forallb_string] in Ha. apply andb_true_iff in Ha as [Hc Ha].
  rewrite append_cons. cbn [forallb_string]. now rewrite Hc, IH.
Qed.

Lemma py_float_nonneg (s : string) (m e : Z) :
  py_float s = Ok (Finite m e) -> 0 <= m.
Proof.
  unfold py_float. destruct (span is_digit s) as [ip r] eqn:Hsp.
  apply span_spec in Hsp as (_ & Hip & _).
  destruct r as [|c fp].
  - destruct (is_empty ip); [discriminate|]. intros [= H].
    eapply binary64_of_ratio_nonneg; [| |exact H]; [now apply py_int_nonneg | lia].
  - destruct (_ && _) eqn:Hc; [|discriminate]. intros [= H].
    apply andb_true_iff in Hc as [Hc _]. apply andb_true_iff in Hc as [_ Hfp].
    eapply binary64_of_ratio_nonneg; [| |exact H].
    + now apply py_int_append_nonneg.
    + apply Z.pow_pos_nonneg; lia.
Qed.

(** Keys are not negative. *)
Lemma scaled_time_nonneg (s : string) (t : Z) : scaled_time s = Ok t -> 0 <= t.
Proof.
  unfold scaled_time. destruct (py_float s) as [[m e|]|] eqn:Hf; try discriminate.
  apply py_float_nonneg in Hf. cbn [mbind result_bind float_mul_1000].
  set (y := if 0 <=? e then _ else _).
  assert (Hy : forall m' e', y = Finite m' e' -> 0 <= m').
  { intros m' e'. unfold y. destruct (Z.leb_spec 0 e).
    - apply binary64_of_ratio_nonneg; [|lia].
      apply Z.mul_nonneg_nonneg; [lia|]. apply Z.pow_nonneg. lia.
    - apply binary64_of_ratio_nonneg; [lia|]. apply Z.pow_pos_nonneg; lia. }
  destruct y as [m' e'|]; [|discriminate]. specialize (Hy m' e' eq_refl).
  cbn [py_int_of_float]. intros [= <-].
  destruct (Z.leb_spec 0 e').
  - apply Z.mul_nonneg_nonneg; [lia|]. apply Z.pow_nonneg. lia.
  - apply Z.quot_pos; [lia|]. apply Z.pow_pos_nonneg; lia.
Qed.

Lemma digit_fields_nonneg (dp : datapoint) :
  digit_fields dp -> 0 <= dp_index dp /\ 0 <= dp_bytes dp /\ 0 <= dp_ops dp.
Proof.
  destruct dp as [[[ts idx] nb] ops]. unfold digit_fields, dp_index, dp_bytes, dp_ops.
  intros (_ & _ & _ & H1 & _ & H2 & _ & H3).
  repeat split; now apply py_int_nonneg.
Qed.

Lemma series_ok_step (st st' : parse_state) (dp : datapoint) :
  digit_fields dp ->
  series_ok (ps_timeseries_data st) ->
  process_datapoint st dp = Ok st' ->
  series_ok (ps_timeseries_data st').
Proof.
  intros Hdf Hok H.
  destruct (digit_fields_nonneg dp Hdf) as (Hi & Hb & Ho).
  apply process_datapoint_Ok in H as (t & Ht & _ & Hd).
  apply scaled_time_nonneg in Ht.
  destruct (ps_last_timestamp st !! dp_index dp) as [last|].
  2:{ destruct Hd as [_ ->]. exact Hok. }
  destruct Hd as (ns & Hns & ->). intros i inner Hlook.
  destruct (Z.eq_dec (dp_index dp) i) as [<-|Hne].
  2:{ rewrite lookup_insert_ne in Hlook by exact Hne. now apply Hok. }
  rewrite lookup_insert_eq in Hlook. injection Hlook as <-.
  split; [exact Hi|]. split; [apply insert_non_empty|].
  intros t' raw Hraw. destruct (Z.eq_dec t t') as [<-|Hnet].
  - rewrite lookup_insert_eq in Hraw. injection Hraw as <-.
    split; [exact Ht|]. unfold measurement_ok. cbn [nr_bytes nr_ops ns_per_op].
    split; [exact Hb|]. split; [exact Ho|].
    intros E. unfold derived_latency in Hns. rewrite E in Hns.
    cbn in Hns. congruence.
  - rewrite lookup_insert_ne in Hraw by exact Hnet.
    destruct (ps_timeseries_data st !! dp_index dp) as [old|] eqn:Hold.
    + cbn [default] in Hraw. destruct (Hok _ _ Hold) as (_ & _ & H). now apply H.
    + cbn [default] in Hraw. rewrite lookup_empty in Hraw. discriminate.
Qed.

Lemma series_ok_steps (l : list datapoint) (st st' : parse_state) :
  Forall digit_fields l ->
  series_ok (ps_timeseries_data st) ->
  process_datapoints st l = Ok st' ->
  series_ok (ps_timeseries_data st').
Proof.
  revert st; induction l as [|dp l IH]; intros st Hl Hok H.
  - now injection H as <-.
  - apply process_datapoints_cons_Ok in H as (st1 & H1 & H).
    inversion Hl as [|? ? Hdp Hl']; subst.
    eapply IH; [exact Hl'| |exact H]. eapply series_ok_step; eauto.
Qed.

(** What a success of [process_output] tells about the text. *)
Lemma process_output_success (output : string) (r : UPerfResults) :
  process_output output = Ok (success_output r) ->
  utf8_valid output = true
  /\ re_search_profile output = Some (profile_name r)
  /\ re_findall_samples output <> []
  /\ exists st, process_datapoints ps_init (re_findall_samples output) = Ok st
       /\ timeseries_data r = ps_timeseries_data st.
Proof.
  intros H. destruct (utf8_valid output) eqn:Hv.
  2:{ unfold process_output, decode_utf8 in H. rewrite Hv in H. discriminate. }
  rewrite (process_output_valid _ Hv) in H. split; [reflexivity|].
  destruct (re_search_profile output) as [n|]; [|discriminate].
  destruct (process_datapoints ps_init (re_findall_samples output)) as [st|] eqn:Hr;
    [|discriminate].
  cbn [mbind result_bind] in H.
  destruct (re_findall_samples output) as [|dp l] eqn:Hl; [discriminate|].
  cbn [length Nat.eqb] in H. injection H as <-.
  split; [reflexivity|]. split; [discriminate|]. now exists st.
Qed.

(** X6: in a success of [process_output] no index and no key is negative,
    every index that is present has at least one measurement, the counters
    are not negative, and a measurement without operations has latency 0. *)
Theorem process_output_series_ok (output : string) (r : UPerfResults) :
  process_output output = Ok (success_output r) ->
  series_ok (timeseries_data r).
Proof.
  intros H. apply process_output_success in H as (_ & _ & _ & st & Hrun & ->).
  eapply series_ok_steps; [| |exact Hrun].
  - eapply Forall_impl; [apply findall_from_sound|]. apply sample_of_digit_fields.
  - intros i inner Hl. unfold ps_init in Hl. cbn [ps_timeseries_data] in Hl.
    rewrite lookup_empty in Hl. discriminate.
Qed.

Lemma process_output_series_ok_witness :
  series_ok
    (timeseries_data
       (mkUPerfResults "p"
          {[ 3 := {[ 1500000 := mkUPerfRawData 6400 50 10000000 ]} ]})).
Proof.
  apply (process_output_series_ok output_txn3
           (mkUPerfResults "p" {[ 3 := {[ 1500000 := mkUPerfRawData 6400 50 10000000 ]} ]})).
  vm_compute. reflexivity.
Defined.

(** ** Floating point: where the conversions return *)

(** A ratio below [2^B], with [B] up to 1000, gets a finite float, below
    [2^(B+1)]. *)
Lemma binary64_of_ratio_bounded (n d B : Z) :
  0 <= n -> 0 < d -> 0 <= B <= 1000 -> n < 2 ^ B * d ->
  exists m e, binary64_of_ratio n d = Finite m e
    /\ 0 <= m
    /\ (if 0 <=? e then m * 2 ^ e < 2 ^ (B + 1) else m < 2 ^ (B + 1) * 2 ^ (- e)).
Proof.
  intros Hn Hd HB Hlt.
  assert (HB1 : 2 ^ (B + 1) = 2 * 2 ^ B) by (apply pow2_succ; lia).
  assert (HBpos : 0 < 2 ^ B) by (apply pow2_pos; lia).
  destruct (Z.eq_dec n 0) as [->|Hn0].
  { exists 0, 0. split; [reflexivity|]. split; [lia|]. cbn [Z.leb Z.compare]. lia. }
  destruct (binary64_of_ratio n d) as [m e|] eqn:Hb.
  - exists m, e. split; [reflexivity|].
    assert (Hm : 0 <= m) by (eapply binary64_of_ratio_nonneg; [| |exact Hb]; lia).
    split; [exact Hm|]. revert Hb. unfold binary64_of_ratio.
    destruct (Z.eqb_spec n 0) as [|_]; [lia|].
    destruct (log2_bounds n ltac:(lia)) as (Ha & HaL & HaU).
    destruct (log2_bounds d Hd) as (Hb' & HbL & HbU).
    set (a := Z.log2 n) in *. set (b := Z.log2 d) in *.
    set (e0 := a - b - 52).
    set (e1 := let '(N, D) := scale n d e0 in if N / D <? 2 ^ 52 then e0 - 1 else e0).
    assert (He10 : e1 <= e0).
    { unfold e1. destruct (scale n d e0) as [N D]. destruct (N / D <? 2 ^ 52); lia. }
    set (e' := Z.max e1 (-1074)).
    unfold scale. destruct (Z.leb_spec 0 e') as [He|He].
    + destruct (_ && _); [discriminate|]. intros [= <- <-].
      destruct (Z.leb_spec 0 e') as [_|]; [|lia].
      (* the exponent is not negative: it is at most [e0] *)
      assert (Hee : e' <= e0) by (unfold e'; lia).
      assert (HP : 0 < 2 ^ e') by (apply pow2_pos; lia).
      assert (Hpe : 2 ^ e' * 2 ^ (b + 1) <= 2 ^ a).
      { rewrite <- Z.pow_add_r by lia. apply pow2_le. unfold e0 in Hee. lia. }
      rewrite pow2_succ in Hpe by lia.
      unfold round_half_even.
      pose proof (Z.mul_div_le n (d * 2 ^ e') ltac:(nia)) as Hq.
      assert (0 <= n / (d * 2 ^ e')) by (apply Z.div_pos; nia).
      destruct (_ || _); nia.
    + destruct (_ && _); [discriminate|]. intros [= <- <-].
      destruct (Z.leb_spec 0 e') as [|_]; [lia|].
      assert (HP : 0 < 2 ^ (- e')) by (apply pow2_pos; lia).
      unfold round_half_even.
      pose proof (Z.mul_div_le (n * 2 ^ (- e')) d Hd) as Hq.
      assert (0 <= n * 2 ^ (- e') / d) by (apply Z.div_pos; nia).
      destruct (_ || _); nia.
  - (* no overflow *)
    exfalso. revert Hb. unfold binary64_of_ratio.
    destruct (Z.eqb_spec n 0) as [|_]; [lia|].
    destruct (log2_bounds n ltac:(lia)) as (Ha & HaL & HaU).
    destruct (log2_bounds d Hd) as (Hb' & HbL & HbU).
    set (a := Z.log2 n) in *. set (b := Z.log2 d) in *.
    set (e0 := a - b - 52).
    set (e1 := let '(N, D) := scale n d e0 in if N / D <? 2 ^ 52 then e0 - 1 else e0).
    assert (He10 : e1 <= e0).
    { unfold e1. destruct (scale n d e0) as [N D]. destruct (N / D <? 2 ^ 52); lia. }
    set (e' := Z.max e1 (-1074)).
    unfold scale. destruct (Z.leb_spec 0 e') as [He|He]; [|discriminate].
    cbn [andb].
    destruct (Z.leb_spec (2 ^ 1024) (round_half_even n (d * 2 ^ e') * 2 ^ e'))
      as [Hov|]; [|discriminate]. intros _.
    assert (Hee : e' <= e0) by (unfold e'; lia).
    assert (HP : 0 < 2 ^ e') by (apply pow2_pos; lia).
    assert (Hpe : 2 ^ e' * 2 ^ (b + 1) <= 2 ^ a).
    { rewrite <- Z.pow_add_r by lia. apply pow2_le. unfold e0 in Hee. lia. }
    rewrite pow2_succ in Hpe by lia.
    assert (H1024 : 2 ^ (B + 1) <= 2 ^ 1024) by (apply pow2_le; lia).
    unfold round_half_even in Hov.
    pose proof (Z.mul_div_le n (d * 2 ^ e') ltac:(nia)) as Hq.
    assert (0 <= n / (d * 2 ^ e')) by (apply Z.div_pos; nia).
    destruct (_ || _) in Hov; nia.
Qed.

(** The division of the loop overflows no float as long as the
    timestamps stay below [2^900]. *)
Lemma ns_per_op_of_returns (time last ops : Z) :
  ops <> 0 -> Z.abs (1000 * (time - last)) < 2 ^ 1000 ->
  returns (ns_per_op_of time last ops).
Proof.
  intros Ho Ha. unfold ns_per_op_of, py_truediv.
  destruct (Z.eqb_spec ops 0) as [|_]; [contradiction|].
  destruct (binary64_of_ratio_bounded (Z.abs (1000 * (time - last))) (Z.abs ops) 1000)
    as (m & e & -> & _ & _); [lia | lia | lia | |].
  - assert (0 < 2 ^ 1000) by (apply pow2_pos; lia). nia.
  - cbn [mbind result_bind py_int_of_float]. eexists. reflexivity.
Qed.

Lemma int_of_digits_bound (s : string) (acc : Z) :
  forallb_string is_digit s = true -> 0 <= acc ->
  int_of_digits acc s < (acc + 1) * 10 ^ Z.of_nat (String.length s).
Proof.
  revert acc; induction s as [|c s IH]; intros acc H Hacc;
    cbn [int_of_digits String.length].
  - cbn. lia.
  - cbn [forallb_string] in H. apply andb_true_iff in H as [Hc H].
    pose proof (digit_val_bounds c Hc).
    specialize (IH (10 * acc + digit_val c) H ltac:(lia)).
    rewrite Nat2Z.inj_succ, Z.pow_succ_r by lia.
    assert (0 < 10 ^ Z.of_nat (String.length s)) by (apply Z.pow_pos_nonneg; lia).
    nia.
Qed.

Lemma forallb_string_append (f : ascii -> bool) (a b : string) :
  forallb_string f (a +:+ b) = forallb_string f a && forallb_string f b.
Proof.
  induction a as [|c a IH]; [reflexivity|].
  rewrite append_cons. cbn [forallb_string]. now rewrite IH, andb_assoc.
Qed.

Lemma py_float_decimal (s : string) :
  decimal_literal s ->
  exists ip fp,
    forallb_string is_digit ip = true /\ forallb_string is_digit fp = true
    /\ (String.length ip <= String.length s)%nat
    /\ py_float s = Ok (binary64_of_ratio (py_int (ip +:+ fp))
                                          (10 ^ Z.of_nat (String.length fp))).
Proof.
  intros (ip & fp & Hip & Hfp & [[-> Hne]|[-> Hne]]).
  - exists ip, EmptyString. split; [exact Hip|]. split; [reflexivity|].
    split; [lia|]. unfold py_float. rewrite (span_all _ _ Hip).
    destruct ip; [congruence|]. cbn [is_empty]. now rewrite append_empty_r.
  - exists ip, fp. split; [exact Hip|]. split; [exact Hfp|].
    split; [rewrite append_length; lia|].
    unfold py_float. rewrite (span_append is_digit ip ("." +:+ fp) Hip) by reflexivity.
    change ("." +:+ fp) with (String "." fp). cbv iota beta.
    change (Ascii.eqb "." ".") with true. rewrite Hfp. cbn [andb].
    destruct ip, fp; cbn [is_empty andb negb]; try reflexivity.
    destruct Hne; congruence.
Qed.

(** A decimal literal of at most 250 characters converts, to a key that is
    not negative and stays below [2^900]. *)
Lemma scaled_time_returns (s : string) :
  decimal_literal s -> (String.length s <= 250)%nat ->
  exists t, scaled_time s = Ok t /\ 0 <= t < 2 ^ 900.
Proof.
  intros Hd Hlen.
  destruct (py_float_decimal s Hd) as (ip & fp & Hip & Hfp & Hl & Hf).
  assert (HN : 0 <= py_int (ip +:+ fp)) by now apply py_int_append_nonneg.
  assert (HD : 0 < 10 ^ Z.of_nat (String.length fp)) by (apply Z.pow_pos_nonneg; lia).
  assert (Hb : py_int (ip +:+ fp) < 2 ^ 831 * 10 ^ Z.of_nat (String.length fp)).
  { pose proof (int_of_digits_bound (ip +:+ fp) 0) as H.
    rewrite forallb_string_append, Hip, Hfp in H. specialize (H eq_refl ltac:(lia)).
    fold (py_int (ip +:+ fp)) in H.
    rewrite append_length, Nat2Z.inj_add, Z.pow_add_r in H by lia.
    assert (10 ^ Z.of_nat (String.length ip) <= 10 ^ 250)
      by (apply Z.pow_le_mono_r; lia).
    assert (10 ^ 250 < 2 ^ 831) by (vm_compute; reflexivity).
    nia. }
  destruct (binary64_of_ratio_bounded _ _ 831 HN HD ltac:(lia) Hb)
    as (m & e & Hx & Hm & Hv).
  assert (Ht : exists t, scaled_time s = Ok t /\ t < 2 ^ 900).
  { unfold scaled_time. rewrite Hf, Hx. cbn [mbind result_bind float_mul_1000].
    assert (H1000 : 1000 * 2 ^ (831 + 1) < 2 ^ 842) by (vm_compute; reflexivity).
    assert (H900 : 2 ^ (842 + 1) < 2 ^ 900) by (vm_compute; reflexivity).
    destruct (Z.leb_spec 0 e) as [He|He].
    - destruct (binary64_of_ratio_bounded (1000 * m * 2 ^ e) 1 842)
        as (m' & e' & -> & Hm' & Hv'); [| lia | lia | |].
      + apply Z.mul_nonneg_nonneg; [lia|]. apply Z.pow_nonneg. lia.
      + nia.
      + cbn [py_int_of_float]. eexists. split; [reflexivity|].
        destruct (Z.leb_spec 0 e'); [lia|].
        assert (0 < 2 ^ (- e')) by (apply pow2_pos; lia).
        rewrite Z.quot_div_nonneg by lia.
        assert (m' / 2 ^ (- e') < 2 ^ (842 + 1)); [|lia].
        apply Z.div_lt_upper_bound; lia.
    - assert (HP : 0 < 2 ^ (- e)) by (apply pow2_pos; lia).
      destruct (binary64_of_ratio_bounded (1000 * m) (2 ^ (- e)) 842)
        as (m' & e' & -> & Hm' & Hv'); [lia | lia | lia | |].
      + nia.
      + cbn [py_int_of_float]. eexists. split; [reflexivity|].
        destruct (Z.leb_spec 0 e'); [lia|].
        assert (0 < 2 ^ (- e')) by (apply pow2_pos; lia).
        rewrite Z.quot_div_nonneg by lia.
        assert (m' / 2 ^ (- e') < 2 ^ (842 + 1)); [|lia].
        apply Z.div_lt_upper_bound; lia. }
  destruct Ht as (t & Ht & Hlt). exists t. split; [exact Ht|].
  split; [now apply (scaled_time_nonneg s)|exact Hlt].
Qed.

(** ** When process_output returns, and when it cannot *)

Lemma process_datapoints_returns (l : list datapoint) (st : parse_state) :
  (forall i t, ps_last_timestamp st !! i = Some t -> 0 <= t < 2 ^ 900) ->
  Forall plain_timestamp l ->
  Forall short_counters l ->
  (forall (pre : list datapoint) dp post, l = (pre ++ dp :: post)%list ->
     Forall (fun x => dp_index x <> dp_index dp) pre ->
     ps_last_timestamp st !! dp_index dp = None -> dp_ops dp = 0) ->
  returns (process_datapoints st l).
Proof.
  revert st; induction l as [|dp l IH]; intros st Hb Hts Hsh Hq.
  - exists st. reflexivity.
  - inversion Hts as [|? ? [Hdec Hlen] Hts']; subst.
    inversion Hsh as [|? ? Hs Hsh']; subst.
    destruct (scaled_time_returns _ Hdec Hlen) as (t & Ht & Htb).
    assert (Hstep : exists data,
               process_datapoint st dp
               = Ok (mkParseState data (<[dp_index dp := t]> (ps_last_timestamp st)))).
    { destruct (ps_last_timestamp st !! dp_index dp) as [last|] eqn:Hl.
      - assert (Hns : returns (derived_latency t last (dp_ops dp))).
        { unfold derived_latency. destruct (Z.eqb_spec (dp_ops dp) 0) as [|Ho].
          - eexists. reflexivity.
          - apply ns_per_op_of_returns; [exact Ho|].
            specialize (Hb _ _ Hl).
            assert (1000 * 2 ^ 900 < 2 ^ 1000) by (vm_compute; reflexivity). lia. }
        destruct Hns as [ns Hns]. eexists.
        exact (process_datapoint_later _ _ _ _ _ Hs Hl Ht Hns).
      - assert (Ho : dp_ops dp = 0) by (apply (Hq [] dp l); [reflexivity | constructor | exact Hl]).
        eexists. exact (process_datapoint_first_zero _ _ _ Hs Hl Ho Ht). }
    destruct Hstep as [data Hstep]. cbn [process_datapoints]. rewrite Hstep.
    cbn [mbind result_bind]. apply IH.
    + intros i t' Hi. cbn [ps_last_timestamp] in Hi.
      destruct (Z.eq_dec (dp_index dp) i) as [<-|Hne].
      * rewrite lookup_insert_eq in Hi. injection Hi as <-. exact Htb.
      * rewrite lookup_insert_ne in Hi by exact Hne. now apply (Hb i).
    + exact Hts'.
    + exact Hsh'.
    + intros pre dp' post -> Hpre Hl'. cbn [ps_last_timestamp] in Hl'.
      destruct (Z.eq_dec (dp_index dp) (dp_index dp')) as [E|Hne].
      * rewrite E, lookup_insert_eq in Hl'. discriminate.
      * rewrite lookup_insert_ne in Hl' by exact Hne.
        apply (Hq (dp :: pre) dp' post); [reflexivity | now constructor | exact Hl'].
Qed.

(** X3: [process_output] returns a tagged value, and raises nothing, on
    every output of 7-bit text in which the timestamps are decimal literals
    of at most 250 characters, no counter has more than [max_str_digits]
    digits and every index starts quietly. *)
Theorem process_output_returns (output : string) :
  is_ascii output = true ->
  Forall plain_timestamp (re_findall_samples output) ->
  Forall short_counters (re_findall_samples output) ->
  quiet_starts (re_findall_samples output) ->
  returns (process_output output).
Proof.
  intros Hv Hts Hsh Hq. apply is_ascii_utf8_valid in Hv.
  rewrite (process_output_valid _ Hv).
  destruct (re_search_profile output) as [n|]; [|eexists; reflexivity].
  destruct (process_datapoints_returns (re_findall_samples output) ps_init)
    as [st ->].
  - intros i t Hi. unfold ps_init in Hi. cbn [ps_last_timestamp] in Hi.
    rewrite lookup_empty in Hi. discriminate.
  - exact Hts.
  - exact Hsh.
  - intros pre dp post E Hpre _. now apply (Hq pre dp post).
  - cbn [mbind result_bind]. destruct (_ =? _)%nat; eexists; reflexivity.
Qed.

Lemma process_output_returns_witness : returns (process_output output_txn3).
Proof.
  apply process_output_returns.
  - reflexivity.
  - replace (re_findall_samples output_txn3)
      with [("1000", "3", "0", "0"); ("1500", "3", "6400", "50")]
      by (vm_compute; reflexivity).
    constructor; [|constructor; [|constructor]].
    + split; [|cbn; lia]. exists "1000", EmptyString.
      split; [reflexivity|]. split; [reflexivity|]. left. split; [reflexivity | discriminate].
    + split; [|cbn; lia]. exists "1500", EmptyString.
      split; [reflexivity|]. split; [reflexivity|]. left. split; [reflexivity | discriminate].
  - replace (re_findall_samples output_txn3)
      with [("1000", "3", "0", "0"); ("1500", "3", "6400", "50")]
      by (vm_compute; reflexivity).
    constructor; [|constructor; [|constructor]]; given_short_counters.
  - replace (re_findall_samples output_txn3)
      with [("1000", "3", "0", "0"); ("1500", "3", "6400", "50")]
      by (vm_compute; reflexivity).
    intros pre dp post E Hpre.
    destruct pre as [|x [|y pre]].
    + injection E as <- _. reflexivity.
    + injection E as <- <- _. exfalso. inversion Hpre as [|? ? Hx _]; subst.
      apply Hx. reflexivity.
    + injection E as _ _ E. destruct pre; discriminate.
Defined.

(** X4: on an output of 7-bit text with a name line, when the samples
    before [dp] are processed, [dp] is the first sample of its index, its
    counters have at most [max_str_digits] digits, it counts operations and
    its timestamp converts, [process_output] raises [KeyError]. *)
Theorem process_output_noisy_start (output : string) (pre post : list datapoint)
    (dp : datapoint) (st : parse_state) :
  is_ascii output = true ->
  has_name_line output ->
  re_findall_samples output = (pre ++ dp :: post)%list ->
  process_datapoints ps_init pre = Ok st ->
  Forall (fun x => dp_index x <> dp_index dp) pre ->
  short_counters dp ->
  dp_ops dp <> 0 ->
  returns (scaled_time (dp_ts dp)) ->
  process_output output = Raise KeyError.
Proof.
  intros Hv Hn Hl Hpre Hun Hsh Ho [t Ht]. apply is_ascii_utf8_valid in Hv.
  rewrite (process_output_valid _ Hv).
  destruct (re_search_profile output) as [n|] eqn:Hs.
  2:{ apply re_search_profile_None in Hs. contradiction. }
  rewrite Hl, process_datapoints_app, Hpre. cbn [mbind result_bind process_datapoints].
  destruct (unseen_index _ _ _ Hpre Hun) as [Hlast _].
  now rewrite (process_datapoint_first_nonzero _ _ _ Hsh Hlast Ho Ht).
Qed.

Lemma process_output_noisy_start_witness :
  process_output output_first_sample_with_ops = Raise KeyError.
Proof.
  apply (process_output_noisy_start output_first_sample_with_ops
           [] [] ("1000.0", "1", "10", "5") ps_init).
  - reflexivity.
  - exists EmptyString, "x",
      (nl +:+ "timestamp_ms:1000.0 name:Txn1 nr_bytes:10 nr_ops:5").
    split; [reflexivity|]. split; [discriminate | reflexivity].
  - vm_compute. reflexivity.
  - reflexivity.
  - constructor.
  - given_short_counters.
  - vm_compute. discriminate.
  - exists 1000000. vm_compute. reflexivity.
Defined.

Lemma agree_at_step (i : Z) (st1 st2 st1' : parse_state) (dp : datapoint) :
  agree_at i st1 st2 -> dp_index dp = i ->
  process_datapoint st1 dp = Ok st1' ->
  exists st2', process_datapoint st2 dp = Ok st2' /\ agree_at i st1' st2'.
Proof.
  intros [Hd Hl] Hi H.
  pose proof (process_datapoint_Ok_short _ _ _ H) as Hs.
  apply process_datapoint_Ok in H as (t & Ht & El & Hc).
  rewrite Hi in *. destruct (ps_last_timestamp st1 !! i) as [last|] eqn:Hl1.
  - destruct Hc as (ns & Hns & Ed). symmetry in Hl. rewrite <- Hi in Hl.
    eexists. split; [exact (process_datapoint_later _ _ _ _ _ Hs Hl Ht Hns)|].
    split; cbn [ps_timeseries_data ps_last_timestamp].
    + rewrite Ed, Hi, !lookup_insert_eq, Hd. reflexivity.
    + rewrite El, Hi, !lookup_insert_eq. reflexivity.
  - destruct Hc as [Ho Ed]. symmetry in Hl. rewrite <- Hi in Hl.
    eexists. split; [exact (process_datapoint_first_zero _ _ _ Hs Hl Ho Ht)|].
    split; cbn [ps_timeseries_data ps_last_timestamp].
    + rewrite Ed. exact Hd.
    + rewrite El, Hi, !lookup_insert_eq. reflexivity.
Qed.

Lemma agree_at_run (i : Z) (l : list datapoint) (st1 st2 st1' : parse_state) :
  agree_at i st1 st2 ->
  process_datapoints st1 l = Ok st1' ->
  exists st2',
    process_datapoints st2 (filter (fun dp => dp_index dp = i) l) = Ok st2'
    /\ agree_at i st1' st2'.
Proof.
  revert st1 st2; induction l as [|dp l IH]; intros st1 st2 Ha H.
  - injection H as <-. exists st2. split; [reflexivity | exact Ha].
  - apply process_datapoints_cons_Ok in H as (st1a & H1 & H).
    destruct (decide (dp_index dp = i)) as [Hi|Hi].
    + rewrite filter_cons_True by exact Hi.
      destruct (agree_at_step i st1 st2 st1a dp Ha Hi H1) as (st2a & H2 & Ha').
      destruct (IH st1a st2a Ha' H) as (st2' & Hr & Ha'').
      exists st2'. split; [|exact Ha'']. cbn [process_datapoints]. now rewrite H2.
    + rewrite filter_cons_False by exact Hi.
      destruct (process_datapoint_other _ _ _ _ H1 Hi) as [Ed El].
      apply (IH st1a st2); [|exact H].
      destruct Ha as [Hd Hl]. split; congruence.
Qed.

(** X7: the series of an index depends on the samples of that index alone:
    a run that completes leaves for index [i] what the run over the
    samples of [i], in their order, leaves for it. *)
Theorem series_of_index_alone (i : Z) (l : list datapoint) (st : parse_state) :
  process_datapoints ps_init l = Ok st ->
  exists st',
    process_datapoints ps_init (filter (fun dp => dp_index dp = i) l) = Ok st'
    /\ ps_timeseries_data st' !! i = ps_timeseries_data st !! i
    /\ ps_last_timestamp st' !! i = ps_last_timestamp st !! i.
Proof.
  intros H. destruct (agree_at_run i l ps_init ps_init st) as (st' & Hr & Hd & Hl).
  - split; reflexivity.
  - exact H.
  - exists st'. split; [exact Hr|]. split; congruence.
Qed.

Lemma series_of_index_alone_witness :
  exists st',
    process_datapoints ps_init
      (filter (fun dp => dp_index dp = 3)
         [("1000.0", "3", "0", "0"); ("1200.0", "1", "0", "0");
          ("1500.0", "3", "6400", "50")]) = Ok st'
    /\ ps_timeseries_data st' !! 3
       = ps_timeseries_data
           (mkParseState {[ 3 := {[ 1500000 := mkUPerfRawData 6400 50 10000000 ]} ]}
                         (<[3 := 1500000]> (<[1 := 1200000]> {[ 3 := 1000000 ]}))) !! 3
    /\ ps_last_timestamp st' !! 3
       = ps_last_timestamp
           (mkParseState {[ 3 := {[ 1500000 := mkUPerfRawData 6400 50 10000000 ]} ]}
                         (<[3 := 1500000]> (<[1 := 1200000]> {[ 3 := 1000000 ]}))) !! 3.
Proof.
  apply (series_of_index_alone 3
           [("1000.0", "3", "0", "0"); ("1200.0", "1", "0", "0");
            ("1500.0", "3", "6400", "50")]).
  vm_compute. reflexivity.
Defined.

(** ** What the loop keeps, and the name it returns *)

Lemma lookup2_step (st st' : parse_state) (dp : datapoint) (i t : Z)
    (raw : UPerfRawData) :
  process_datapoint st dp = Ok st' ->
  lookup2 (ps_timeseries_data st) i t = Some raw ->
  is_Some (lookup2 (ps_timeseries_data st') i t)
  /\ (dp_index dp <> i \/ scaled_time (dp_ts dp) <> Ok t ->
      lookup2 (ps_timeseries_data st') i t = Some raw).
Proof.
  intros H Hraw. apply process_datapoint_Ok in H as (t0 & Ht & _ & Hc).
  destruct (ps_last_timestamp st !! dp_index dp) as [last|].
  2:{ destruct Hc as [_ ->]. rewrite Hraw. eauto. }
  destruct Hc as (ns & _ & ->). unfold lookup2 in *.
  destruct (Z.eq_dec (dp_index dp) i) as [Hi|Hi].
  2:{ rewrite lookup_insert_ne by exact Hi. rewrite Hraw. eauto. }
  rewrite Hi, lookup_insert_eq. cbn [mbind option_bind].
  destruct (ps_timeseries_data st !! i) as [old|]; [|discriminate].
  cbn [mbind option_bind default id] in *.
  destruct (Z.eq_dec t0 t) as [->|Hne].
  - rewrite lookup_insert_eq. split; [eauto|]. intros [?|?]; congruence.
  - rewrite lookup_insert_ne by exact Hne. rewrite Hraw. eauto.
Qed.

(** X8: the loop drops no measurement.  What is recorded for an index and a
    key stays recorded to the end of the run, and keeps its value unless a
    later sample of that index has the same key. *)
Theorem recorded_stays (l : list datapoint) (st st' : parse_state) (i t : Z)
    (raw : UPerfRawData) :
  process_datapoints st l = Ok st' ->
  lookup2 (ps_timeseries_data st) i t = Some raw ->
  is_Some (lookup2 (ps_timeseries_data st') i t)
  /\ (Forall (fun dp => dp_index dp <> i \/ scaled_time (dp_ts dp) <> Ok t) l ->
      lookup2 (ps_timeseries_data st') i t = Some raw).
Proof.
  revert st raw; induction l as [|dp l IH]; intros st raw H Hraw.
  - injection H as <-. rewrite Hraw. eauto.
  - apply process_datapoints_cons_Ok in H as (st1 & H1 & H).
    destruct (lookup2_step _ _ _ _ _ _ H1 Hraw) as [[raw1 Hraw1] Hkeep].
    destruct (IH _ _ H Hraw1) as [Hs _]. split; [exact Hs|].
    intros Hall. inversion Hall as [|? ? Hdp Hl]; subst.
    destruct (IH _ _ H (Hkeep Hdp)) as [_ Hk]. now apply Hk.
Qed.

Lemma recorded_stays_witness :
  is_Some (lookup2
             (ps_timeseries_data
                (mkParseState
                   {[ 3 := <[2500000 := mkUPerfRawData 6400 0 0]>
                             {[ 1500000 := mkUPerfRawData 6400 50 10000000 ]} ]}
                   {[ 3 := 2500000 ]}))
             3 1500000).
Proof.
  apply (recorded_stays [("2500", "3", "6400", "0")]
           (mkParseState {[ 3 := {[ 1500000 := mkUPerfRawData 6400 50 10000000 ]} ]}
                         {[ 3 := 1500000 ]})
           _ 3 1500000 (mkUPerfRawData 6400 50 10000000)).
  - vm_compute. reflexivity.
  - reflexivity.
Defined.

Lemma longest_before_ellipsis_max (s n : string) :
  longest_before_ellipsis s = Some n ->
  forall n' post', s = n' +:+ " ..." +:+ post' -> no_newline n' = true ->
  (String.length n' <= String.length n)%nat.
Proof.
  revert n; induction s as [|c r IH]; intros n; cbn [longest_before_ellipsis];
    [discriminate|].
  destruct (Ascii.eqb c newline); [discriminate|].
  destruct (longest_before_ellipsis r) as [m|] eqn:Hr.
  - intros [= <-] n' post' E Hn'. destruct n' as [|c' n'']; [cbn; lia|].
    rewrite append_cons in E. injection E as _ E.
    unfold no_newline in Hn'. cbn [forallb_string] in Hn'.
    apply andb_true_iff in Hn' as [_ Hn''].
    specialize (IH m eq_refl n'' post' E Hn''). cbn [String.length]. lia.
  - destruct (strip_prefix " ..." (String c r)); [|discriminate].
    intros [= <-] n' post' E Hn'. destruct n' as [|c' n'']; [cbn; lia|].
    rewrite append_cons in E. injection E as _ E.
    unfold no_newline in Hn'. cbn [forallb_string] in Hn'.
    apply andb_true_iff in Hn' as [_ Hn''].
    assert (Hsome : is_Some (longest_before_ellipsis r))
      by (rewrite E; now apply longest_before_ellipsis_complete).
    destruct Hsome as [m Hm]. congruence.
Qed.

Lemma match_profile_here_max (s n : string) :
  match_profile_here s = Some n ->
  forall n' post', name_line_at s EmptyString n' post' ->
  (String.length n' <= String.length n)%nat.
Proof.
  unfold match_profile_here.
  destruct (strip_prefix "running profile:" s) as [[|c r]|] eqn:Hp; try discriminate.
  destruct (Ascii.eqb c newline); [discriminate|].
  destruct (longest_before_ellipsis r) as [m|] eqn:Hr; [|discriminate].
  intros [= <-] n' post' (E & Hne & Hn').
  apply strip_prefix_spec in Hp. rewrite Hp in E.
  change (EmptyString +:+ "running profile:" +:+ n' +:+ " ..." +:+ post')
    with ("running profile:" +:+ n' +:+ " ..." +:+ post') in E.
  apply (inj (String.append "running profile:")) in E.
  destruct n' as [|c' n'']; [congruence|].
  rewrite append_cons in E. injection E as _ E.
  unfold no_newline in Hn'. cbn [forallb_string] in Hn'.
  apply andb_true_iff in Hn' as [_ Hn''].
  pose proof (longest_before_ellipsis_max _ _ Hr n'' post' E Hn'').
  cbn [String.length]. lia.
Qed.

Lemma re_search_profile_cons (c : ascii) (r : string) :
  re_search_profile (String c r)
  = match match_profile_here (String c r) with
    | Some n => Some n
    | None => re_search_profile r
    end.
Proof. reflexivity. Qed.

(** [re.search] returns the name of the leftmost name line, and of the
    name lines that start there the one with the longest name. *)
Lemma re_search_profile_leftmost_longest (s n : string) :
  re_search_profile s = Some n ->
  exists pre post,
    name_line_at s pre n post
    /\ forall pre' n' post', name_line_at s pre' n' post' ->
         (String.length pre <= String.length pre')%nat
         /\ (String.length pre' = String.length pre ->
             (String.length n' <= String.length n)%nat).
Proof.
  revert n; induction s as [|c r IH]; intros n.
  - cbn. discriminate.
  - rewrite re_search_profile_cons.
    destruct (match_profile_here (String c r)) as [m|] eqn:Hm.
    + intros [= <-].
      destruct (match_profile_here_sound _ _ Hm) as (Hne & Hn & post & E).
      exists EmptyString, post. split; [repeat split; assumption|].
      intros pre' n' post' Hline. split; [cbn; lia|].
      intros Hlen. destruct pre'; [|discriminate].
      exact (match_profile_here_max _ _ Hm n' post' Hline).
    + intros H. destruct (IH n H) as (pre & post & (E & Hne & Hn) & Hmin).
      exists (String c pre), post. split.
      * split; [|split; assumption]. rewrite append_cons. now f_equal.
      * intros pre' n' post' (E' & Hne' & Hn'). destruct pre' as [|c' pre''].
        -- exfalso.
           assert (Hsome : is_Some (match_profile_here (String c r)))
             by (rewrite E'; now apply match_profile_here_complete).
           destruct Hsome as [x Hx]. congruence.
        -- rewrite append_cons in E'. injection E' as _ E'.
           destruct (Hmin pre'' n' post') as [H1 H2]; [repeat split; assumption|].
           cbn [String.length]. split; [lia|]. intros Hl. apply H2. lia.
Qed.

(** X9: the profile name of a success is the name of a name line of the
    output: not empty, on one line, between the marker and an ellipsis.  It
    is the leftmost name line, and the longest name there. *)
Theorem process_output_profile_name (output : string) (r : UPerfResults) :
  process_output output = Ok (success_output r) ->
  exists pre post,
    name_line_at output pre (profile_name r) post
    /\ forall pre' n' post', name_line_at output pre' n' post' ->
         (String.length pre <= String.length pre')%nat
         /\ (String.length pre' = String.length pre ->
             (String.length n' <= String.length (profile_name r))%nat).
Proof.
  intros H. apply process_output_success in H as (_ & Hs & _).
  now apply re_search_profile_leftmost_longest.
Qed.

Lemma process_output_profile_name_witness :
  exists pre post,
    name_line_at output_txn3 pre "p" post
    /\ forall pre' n' post', name_line_at output_txn3 pre' n' post' ->
         (String.length pre <= String.length pre')%nat
         /\ (String.length pre' = String.length pre ->
             (String.length n' <= String.length "p")%nat).
Proof.
  apply (process_output_profile_name output_txn3
           (mkUPerfResults "p" {[ 3 := {[ 1500000 := mkUPerfRawData 6400 50 10000000 ]} ]})).
  vm_compute. reflexivity.
Defined.

(** ** The steps *)









(** ** Decoding, and the document *)

(** X11: a text of 7-bit characters always decodes, to itself. *)
Theorem decode_utf8_ascii (s : string) :
  is_ascii s = true -> decode_utf8 s = Ok s.
Proof.
  intros H. unfold decode_utf8.
  replace (utf8_valid s) with true; [reflexivity|]. symmetry.
  induction s as [|c s IH]; [reflexivity|].
  unfold is_ascii in H. cbn [forallb_string] in H.
  apply andb_true_iff in H as [Hc H]. cbn [utf8_valid]. rewrite Hc. now apply IH.
Qed.

Lemma decode_utf8_ascii_witness : decode_utf8 output_txn3 = Ok output_txn3.
Proof. apply decode_utf8_ascii. reflexivity. Defined.

Lemma flowop_element_eq (f : Flowop) :
  flowop_element f
  = mkElement "flowop"
      (("type", type f)
         :: match options f with
            | [] => []
            | _ :: _ => [("options", join " " (options f))]
            end)
      None [] None.
Proof. unfold flowop_element, new_element. destruct (options f); reflexivity. Qed.

Lemma transaction_element_eq (t : Transaction) :
  transaction_element t
  = mkElement "transaction" (elem_attrib (transaction_element t)) None
      (map flowop_element (flowops t)) None.
Proof.
  rewrite transaction_element_attrib. unfold transaction_element, new_element.
  destruct (iterations t), (duration t), (rate t); cbn [elem_set attrib_set];
    now rewrite fold_left_elem_append.
Qed.

Lemma group_element_eq (g : Group) :
  group_element g
  = mkElement "group" (elem_attrib (group_element g)) None
      (map transaction_element (transactions g)) None.
Proof.
  rewrite group_element_attrib. unfold group_element, new_element.
  destruct (nthreads g), (nprocs g); cbn [elem_set attrib_set];
    now rewrite fold_left_elem_append.
Qed.

(** X17: the tree [write_profile] builds has the shape of the workload: one
    [group] element per group, one [transaction] element per transaction
    and one [flowop] element per operation, each list in the order
    given; an operation without options gets no [options] attribute. *)
Theorem profile_tree_shape (p : Profile) :
  elem_tag (profile_tree p) = "profile"
  /\ elem_attrib (profile_tree p) = [("name", name p)]
  /\ elem_children (profile_tree p) = map group_element (groups p)
  /\ (forall g, elem_tag (group_element g) = "group"
                /\ elem_children (group_element g)
                   = map transaction_element (transactions g))
  /\ (forall t, elem_tag (transaction_element t) = "transaction"
                /\ elem_children (transaction_element t)
                   = map flowop_element (flowops t))
  /\ (forall f, elem_tag (flowop_element f) = "flowop"
                /\ elem_children (flowop_element f) = []
                /\ elem_attrib (flowop_element f)
                   = ("type", type f)
                       :: match options f with
                          | [] => []
                          | _ :: _ => [("options", join " " (options f))]
                          end).
Proof.
  rewrite profile_tree_eq. repeat split.
  - now rewrite group_element_eq.
  - now rewrite group_element_eq.
  - now rewrite transaction_element_eq.
  - now rewrite transaction_element_eq.
  - now rewrite flowop_element_eq.
  - now rewrite flowop_element_eq.
  - now rewrite flowop_element_eq.
Qed.

Lemma indent_tail (e : Element) : elem_tail (indent e) = elem_tail e.
Proof.
  unfold indent. destruct (has_children e); [|reflexivity].
  destruct e as [t a x c l]. reflexivity.
Qed.

Lemma serialize_xml_end (esc : string -> string) (e : Element) :
  elem_tail e = None -> exists body, serialize_xml esc e = body +:+ ">".
Proof.
  destruct e as [t a x c l]. cbn [elem_tail]. intros ->. cbn [serialize_xml opt_text].
  rewrite append_empty_r. destruct (_ || _).
  - match goal with
    | |- exists body, "<" +:+ t +:+ ?i +:+ ">" +:+ ?ox +:+ ?cs +:+ "</" +:+ t +:+ ">" = _ =>
        exists ("<" +:+ t +:+ i +:+ ">" +:+ ox +:+ cs +:+ "</" +:+ t)
    end.
    now rewrite !append_assoc.
  - match goal with
    | |- exists body, "<" +:+ t +:+ ?i +:+ " />" = _ =>
        exists ("<" +:+ t +:+ i +:+ " /")
    end.
    now rewrite !append_assoc.
Qed.

(** X18: the document of every profile, with or without groups, ends with
    the [>] of its last tag and exactly one newline. *)
Theorem profile_document_one_newline (esc : string -> string) (p : Profile) :
  (exists body, profile_document esc p = body +:+ ">" +:+ nl)
  /\ trailing_newlines (profile_document esc p) = 1%nat.
Proof.
  assert (H : exists body, profile_document esc p = body +:+ ">" +:+ nl).
  { unfold profile_document, tree_text.
    destruct (serialize_xml_end esc (indent (profile_tree p))) as [body ->].
    - rewrite indent_tail, profile_tree_eq. reflexivity.
    - exists (xml_declaration +:+ body). change (String newline EmptyString) with nl.
      now rewrite !append_assoc. }
  split; [exact H|]. destruct H as [body ->].
  change (">" +:+ nl) with (String ">" nl). apply trailing_newlines_after. discriminate.
Qed.

(** ** Witnesses of the exact conversions, and malformed timestamps *)

Lemma ns_per_op_of_exact_witness :
  ns_per_op_of 1500000 1000000 50 = Ok (Z.quot (1000 * (1500000 - 1000000)) 50)
  /\ ns_per_op_of 1000 2000 3 = Ok (Z.quot (1000 * (1000 - 2000)) 3).
Proof.
  split; apply ns_per_op_of_exact;
    first [discriminate | vm_compute; reflexivity].
Defined.

Lemma scaled_time_whole_witness : scaled_time "1500" = Ok (1000 * py_int "1500").
Proof.
  apply scaled_time_whole; [discriminate | reflexivity | vm_compute; reflexivity].
Defined.

(** [float] accepts exactly the decimal literals. *)
Lemma py_float_returns_iff (s : string) : returns (py_float s) <-> decimal_literal s.
Proof.
  split.
  - intros [x Hx]. unfold py_float in Hx.
    destruct (span is_digit s) as [ip r] eqn:Hsp.
    apply span_spec in Hsp as (-> & Hip & _).
    destruct r as [|c fp].
    + destruct ip as [|a ip]; [discriminate|]. exists (String a ip), EmptyString.
      split; [exact Hip|]. split; [reflexivity|]. left.
      split; [now rewrite append_empty_r | discriminate].
    + destruct (_ && _) eqn:Hc; [|discriminate].
      apply andb_true_iff in Hc as [Hc Hne]. apply andb_true_iff in Hc as [Hdot Hfp].
      apply Ascii.eqb_eq in Hdot as ->. exists ip, fp.
      split; [exact Hip|]. split; [exact Hfp|]. right. split; [reflexivity|].
      destruct ip, fp; cbn in Hne; try discriminate; auto; left; discriminate.
  - intros Hd. destruct (py_float_decimal s Hd) as (ip & fp & _ & _ & _ & ->).
    eexists. reflexivity.
Qed.

(** X5: a sample whose timestamp field is not a decimal literal (more than
    one dot, or no digit) makes the loop raise [ValueError], before it
    looks at anything else. *)
Theorem process_datapoint_bad_timestamp (st : parse_state) (dp : datapoint) :
  forallb_string is_digit_or_dot (dp_ts dp) = true ->
  ~ decimal_literal (dp_ts dp) ->
  process_datapoint st dp = Raise ValueError.
Proof.
  intros _ Hbad. rewrite <- py_float_returns_iff in Hbad.
  open_datapoint dp. unfold scaled_time.
  destruct (py_float s) as [x|e] eqn:Hf.
  - exfalso. apply Hbad. now exists x.
  - replace e with ValueError; [reflexivity|].
    unfold py_float in Hf. destruct (span is_digit s) as [ip r].
    destruct r; [destruct (is_empty ip)|destruct (_ && _)]; congruence.
Qed.

Lemma process_datapoint_bad_timestamp_witness :
  process_datapoint ps_init ("1.2.3", "1", "0", "0") = Raise ValueError.
Proof.
  apply process_datapoint_bad_timestamp; [reflexivity|].
  intros H. apply py_float_returns_iff in H. destruct H as [x H].
  vm_compute in H. discriminate.
Defined.
